(** * cf_exporter: the metadata collector and the fetch orchestrator

    A shallow embedding of [collectors.MetadataCollector] (constructor,
    [Collect], [reportMetadataMetrics]) and of [fetcher.Fetcher]
    ([workInit], [fetch]), followed by the properties of the two.

    Conventions of the embedding.
    - A Go [error] is a message; [nil] is [None].
    - [float64] is the kernel's binary64; [float64(n)] for an integer [n] is
      the correctly rounded conversion.
    - The metric objects a collector points to ([*GaugeVec], [Counter],
      [Gauge]) live as long as the collector does.  The record
      [MetadataCollector] holds their contents, and a method with a value
      receiver returns the record with the contents it left behind.
    - The channel [ch] is the list of metrics sent so far, the logger is the
      list of entries written so far.
    - A computation that panics yields [None].  The panics that depend
      on the snapshot (a [nil] metadata pointer, a label value that is
      not valid UTF-8) are those of [Runtime]; wherever [Runtime.Collect]
      returns, [Collect] returns the same.
    - [range] over a Go map visits the entries in the order of
      [map_to_list]; what the loops set does not depend on that order
      ([setAll_Permutation]), and what is sent is stated up to order. *)

From Stdlib Require Import ZArith.
From Stdlib Require Import Floats.PrimFloat Floats.SpecFloat Floats.FloatOps.
From stdpp Require Import gmap strings list fin_maps.

Definition error := string.

(** [float64(n)] for an integer [n]: round to nearest, ties to even. *)
Definition float64_of_Z (n : Z) : float :=
  SF2Prim (binary_normalize prec emax n 0 false).

(* ===================================================================== *)
(** ** Package models *)
(* ===================================================================== *)

Module Models.

(** Modelled from the spec: package [models] is not among the sources.
    An entity carries "a mapping from arbitrary string keys to string
    values, insertion order irrelevant, keys unique within an entity". *)
Record ResourceMetadata := mkMetadata { Labels : gmap string string }.

(** Modelled from the spec: a relationship reference is "present and
    resolvable to a GUID" or "present but empty"; "absent entirely" is a
    name with no entry in the entity's relationship map. *)
Inductive Relationship :=
| ToOne (guid : string)
| Empty.

(** Modelled from the spec: an entity (organization, space, application)
    is "identified by a globally unique identifier (GUID, opaque string),
    carries a human-readable name, and carries a metadata label set". *)
Record Entity := mkEntity {
  GUID : string;
  Name : string;
  Metadata : ResourceMetadata;
  Relationships : gmap string Relationship
}.

(** [guid, ok := e.Relationships[name].Data.GUID] *)
Definition relationshipGUID (e : Entity) (name : string) : option string :=
  match Relationships e !! name with
  | Some (ToOne guid) => Some guid
  | Some Empty => None
  | None => None
  end.

(** Modelled from the spec: the snapshot owns "for each entity category,
    (1) an ordered collection of fetched entities and (2) a GUID-keyed
    index", "an optional top-level error" and "an elapsed-time
    measurement".  The fields are those the collector reads. *)
Record CFObjects := mkCFObjects {
  Organizations : list Entity;
  Spaces : list Entity;
  Applications : list Entity;
  OrganizationsMap : gmap string Entity;
  SpacesMap : gmap string Entity;
  Error : option error;
  Took : float
}.

(** Modelled from the spec: "a fresh snapshot is created at the start of
    each scrape cycle". *)
Definition NewCFObjects : CFObjects :=
  {| Organizations := []; Spaces := []; Applications := [];
     OrganizationsMap := ∅; SpacesMap := ∅;
     Error := None; Took := 0%float |}.

Definition setError (e : option error) (o : CFObjects) : CFObjects :=
  {| Organizations := Organizations o; Spaces := Spaces o;
     Applications := Applications o;
     OrganizationsMap := OrganizationsMap o; SpacesMap := SpacesMap o;
     Error := e; Took := Took o |}.

(** The snapshot with another collection of spaces, of applications. *)
Definition setSpaces (l : list Entity) (o : CFObjects) : CFObjects :=
  {| Organizations := Organizations o; Spaces := l;
     Applications := Applications o;
     OrganizationsMap := OrganizationsMap o; SpacesMap := SpacesMap o;
     Error := Error o; Took := Took o |}.


End Models.

(* ===================================================================== *)
(** ** The client library's metric objects, by their contract *)
(* ===================================================================== *)

Module Prometheus.

Record Opts := mkOpts {
  Namespace : string;
  Subsystem : string;
  Name : string;
  Help : string;
  ConstLabels : list (string * string)
}.

Record Desc := mkDesc {
  fqName : string;
  help : string;
  constLabels : list (string * string);
  variableLabels : list string
}.

Definition BuildFQName (namespace subsystem name : string) : string :=
  if String.eqb name "" then ""
  else
    (if String.eqb namespace "" then "" else namespace +:+ "_") +:+
    (if String.eqb subsystem "" then "" else subsystem +:+ "_") +:+
    name.

Definition NewDesc (o : Opts) (labelNames : list string) : Desc :=
  {| fqName := BuildFQName (Namespace o) (Subsystem o) (Name o);
     help := Help o;
     constLabels := ConstLabels o;
     variableLabels := labelNames |}.

(** What a collector sends on the channel: a described sample. *)
Record Metric := mkMetric {
  m_desc : Desc;
  m_labelValues : list string;
  m_value : float
}.

(** The pairs (label name, label value) of a sample. *)
Definition labelPairs (m : Metric) : list (string * string) :=
  zip (variableLabels (m_desc m)) (m_labelValues m).

Fixpoint assoc (name : string) (l : list (string * string)) : option string :=
  match l with
  | [] => None
  | (n, v) :: l' => if String.eqb n name then Some v else assoc name l'
  end.

Definition label (name : string) (m : Metric) : option string :=
  assoc name (labelPairs m).

(** A vector of gauges: one child per tuple of label values. *)
Record GaugeVec := mkGaugeVec {
  gv_desc : Desc;
  gv_metrics : gmap (list string) float
}.

Definition NewGaugeVec (o : Opts) (labelNames : list string) : GaugeVec :=
  {| gv_desc := NewDesc o labelNames; gv_metrics := ∅ |}.

(** [v.With(labels)]: the child for [labels], which name every variable
    label of the vector and nothing else; the call panics otherwise.
    This is the check of the label names; [Runtime.With] adds the one of
    the label values. *)
Definition With (v : GaugeVec) (labels : list (string * string))
  : option (list string) :=
  if decide (length labels = length (variableLabels (gv_desc v)))
  then mapM (λ n, assoc n labels) (variableLabels (gv_desc v))
  else None.

(** [child.Set(x)] for the child with label values [lvs]. *)
Definition Set_ (lvs : list string) (x : float) (v : GaugeVec) : GaugeVec :=
  {| gv_desc := gv_desc v; gv_metrics := <[lvs := x]> (gv_metrics v) |}.

(** [v.Collect(ch)] sends every child the vector holds. *)
Definition GaugeVec_Collect (v : GaugeVec) : list Metric :=
  (λ kv, mkMetric (gv_desc v) kv.1 kv.2) <$> map_to_list (gv_metrics v).

Record Counter := mkCounter { c_desc : Desc; c_val : N }.

Definition NewCounter (o : Opts) : Counter :=
  {| c_desc := NewDesc o []; c_val := 0 |}.

Definition Inc (c : Counter) : Counter :=
  {| c_desc := c_desc c; c_val := c_val c + 1 |}.

Definition Counter_Collect (c : Counter) : list Metric :=
  [mkMetric (c_desc c) [] (float64_of_Z (Z.of_N (c_val c)))].

Record Gauge := mkGauge { g_desc : Desc; g_val : float }.

Definition NewGauge (o : Opts) : Gauge :=
  {| g_desc := NewDesc o []; g_val := 0%float |}.

Definition Gauge_Set (x : float) (g : Gauge) : Gauge :=
  {| g_desc := g_desc g; g_val := x |}.

Definition Gauge_Collect (g : Gauge) : list Metric :=
  [mkMetric (g_desc g) [] (g_val g)].

End Prometheus.

(* ===================================================================== *)
(** ** The logger *)
(* ===================================================================== *)

Module Log.

Inductive Level := InfoLevel | WarnLevel | ErrorLevel.

Record Entry := mkEntry {
  level : Level;
  message : string;
  withError : option error
}.

Definition Warn (msg : string) : Entry := mkEntry WarnLevel msg None.

End Log.

(* ===================================================================== *)
(** ** Package collectors *)
(* ===================================================================== *)

Module Collectors.
Import Prometheus Models.

Record MetadataCollector := mkMetadataCollector {
  namespace : string;
  environment : string;
  deployment : string;
  organizationMetadataMetric : GaugeVec;
  spaceMetadataMetric : GaugeVec;
  applicationMetadataMetric : GaugeVec;
  metadataScrapesTotalMetric : Counter;
  metadataScrapeErrorsTotalMetric : Counter;
  lastMetadataScrapeErrorMetric : Gauge;
  lastMetadataScrapeTimestampMetric : Gauge;
  lastMetadataScrapeDurationSecondsMetric : Gauge
}.

Definition NewMetadataCollector (namespace environment deployment : string)
  : MetadataCollector :=
  let constLabels :=
    [("environment", environment); ("deployment", deployment)] in
  let organizationMetadataMetric :=
    NewGaugeVec
      {| Namespace := namespace;
         Subsystem := "organization";
         Prometheus.Name := "metadata";
         Help := "Cloud Foundry Organization metadata labels with a constant '1' value.";
         ConstLabels := constLabels |}
      ["organization_id"; "organization_name"; "label_key"; "label_value"] in
  let spaceMetadataMetric :=
    NewGaugeVec
      {| Namespace := namespace;
         Subsystem := "space";
         Prometheus.Name := "metadata";
         Help := "Cloud Foundry Space metadata labels with a constant '1' value.";
         ConstLabels := constLabels |}
      ["space_id"; "space_name"; "organization_id"; "organization_name";
       "label_key"; "label_value"] in
  let applicationMetadataMetric :=
    NewGaugeVec
      {| Namespace := namespace;
         Subsystem := "application";
         Prometheus.Name := "metadata";
         Help := "Cloud Foundry Application metadata labels with a constant '1' value.";
         ConstLabels := constLabels |}
      ["application_id"; "application_name"; "organization_id";
       "organization_name"; "space_id"; "space_name";
       "label_key"; "label_value"] in
  let metadataScrapesTotalMetric :=
    NewCounter
      {| Namespace := namespace;
         Subsystem := "metadata_scrapes";
         Prometheus.Name := "total";
         Help := "Total number of scrapes for Cloud Foundry Metadata.";
         ConstLabels := constLabels |} in
  let metadataScrapeErrorsTotalMetric :=
    NewCounter
      {| Namespace := namespace;
         Subsystem := "metadata_scrape_errors";
         Prometheus.Name := "total";
         Help := "Total number of scrape errors of Cloud Foundry Metadata.";
         ConstLabels := constLabels |} in
  let lastMetadataScrapeErrorMetric :=
    NewGauge
      {| Namespace := namespace;
         Subsystem := "";
         Prometheus.Name := "last_metadata_scrape_error";
         Help := "Whether the last scrape of Metadata metrics from Cloud Foundry resulted in an error (1 for error, 0 for success).";
         ConstLabels := constLabels |} in
  let lastMetadataScrapeTimestampMetric :=
    NewGauge
      {| Namespace := namespace;
         Subsystem := "";
         Prometheus.Name := "last_metadata_scrape_timestamp";
         Help := "Number of seconds since 1970 since last scrape of Metadata metrics from Cloud Foundry.";
         ConstLabels := constLabels |} in
  let lastMetadataScrapeDurationSecondsMetric :=
    NewGauge
      {| Namespace := namespace;
         Subsystem := "";
         Prometheus.Name := "last_metadata_scrape_duration_seconds";
         Help := "Duration of the last scrape of Metadata metrics from Cloud Foundry.";
         ConstLabels := constLabels |} in
  {| namespace := namespace;
     environment := environment;
     deployment := deployment;
     organizationMetadataMetric := organizationMetadataMetric;
     spaceMetadataMetric := spaceMetadataMetric;
     applicationMetadataMetric := applicationMetadataMetric;
     metadataScrapesTotalMetric := metadataScrapesTotalMetric;
     metadataScrapeErrorsTotalMetric := metadataScrapeErrorsTotalMetric;
     lastMetadataScrapeErrorMetric := lastMetadataScrapeErrorMetric;
     lastMetadataScrapeTimestampMetric := lastMetadataScrapeTimestampMetric;
     lastMetadataScrapeDurationSecondsMetric :=
       lastMetadataScrapeDurationSecondsMetric |}.

(** *** The state a method runs in

    The collector's metric objects, the channel and the logger. *)
Record State := mkState {
  collector : MetadataCollector;
  ch : list Metric;
  logs : list Log.Entry
}.

(** A statement: a state transformer that may panic. *)
Definition M (A : Type) : Type := State → option (A * State).

#[global] Instance M_ret : MRet M := λ A a s, Some (a, s).
#[global] Instance M_bind : MBind M := λ A B f m s,
  match m s with
  | Some (a, s') => f a s'
  | None => None
  end.

(** [for _, x := range xs { body }] *)
Fixpoint forM_ {A} (xs : list A) (body : A → M unit) : M unit :=
  match xs with
  | [] => mret tt
  | x :: xs' => body x;; forM_ xs' body
  end.

(** A field of the collector that points to a metric object. *)
Record Ref (T : Type) := mkRef {
  rget : MetadataCollector → T;
  rset : T → MetadataCollector → MetadataCollector
}.
Arguments rget {T}.
Arguments rset {T}.

Definition modify {T} (r : Ref T) (f : T → T) : M unit := λ s,
  Some (tt, {| collector := rset r (f (rget r (collector s))) (collector s);
               ch := ch s; logs := logs s |}).

Definition send {T} (r : Ref T) (collect : T → list Metric) : M unit := λ s,
  Some (tt, {| collector := collector s;
               ch := ch s ++ collect (rget r (collector s));
               logs := logs s |}).

(** [log.Warnf(format, args...)], the message already formatted. *)
Definition Warnf (msg : string) : M unit := λ s,
  Some (tt, {| collector := collector s; ch := ch s;
               logs := logs s ++ [Log.Warn msg] |}).

(** [r.With(labels).Set(x)] *)
Definition WithSet (r : Ref GaugeVec) (labels : list (string * string))
    (x : float) : M unit := λ s,
  match With (rget r (collector s)) labels with
  | Some lvs => modify r (Set_ lvs x) s
  | None => None
  end.

Definition organizationMetadataMetric_ : Ref GaugeVec :=
  {| rget := organizationMetadataMetric;
     rset v c :=
       mkMetadataCollector (namespace c) (environment c) (deployment c)
         v (spaceMetadataMetric c) (applicationMetadataMetric c)
         (metadataScrapesTotalMetric c) (metadataScrapeErrorsTotalMetric c)
         (lastMetadataScrapeErrorMetric c)
         (lastMetadataScrapeTimestampMetric c)
         (lastMetadataScrapeDurationSecondsMetric c) |}.

Definition spaceMetadataMetric_ : Ref GaugeVec :=
  {| rget := spaceMetadataMetric;
     rset v c :=
       mkMetadataCollector (namespace c) (environment c) (deployment c)
         (organizationMetadataMetric c) v (applicationMetadataMetric c)
         (metadataScrapesTotalMetric c) (metadataScrapeErrorsTotalMetric c)
         (lastMetadataScrapeErrorMetric c)
         (lastMetadataScrapeTimestampMetric c)
         (lastMetadataScrapeDurationSecondsMetric c) |}.

Definition applicationMetadataMetric_ : Ref GaugeVec :=
  {| rget := applicationMetadataMetric;
     rset v c :=
       mkMetadataCollector (namespace c) (environment c) (deployment c)
         (organizationMetadataMetric c) (spaceMetadataMetric c) v
         (metadataScrapesTotalMetric c) (metadataScrapeErrorsTotalMetric c)
         (lastMetadataScrapeErrorMetric c)
         (lastMetadataScrapeTimestampMetric c)
         (lastMetadataScrapeDurationSecondsMetric c) |}.

Definition metadataScrapesTotalMetric_ : Ref Counter :=
  {| rget := metadataScrapesTotalMetric;
     rset v c :=
       mkMetadataCollector (namespace c) (environment c) (deployment c)
         (organizationMetadataMetric c) (spaceMetadataMetric c)
         (applicationMetadataMetric c)
         v (metadataScrapeErrorsTotalMetric c)
         (lastMetadataScrapeErrorMetric c)
         (lastMetadataScrapeTimestampMetric c)
         (lastMetadataScrapeDurationSecondsMetric c) |}.

Definition metadataScrapeErrorsTotalMetric_ : Ref Counter :=
  {| rget := metadataScrapeErrorsTotalMetric;
     rset v c :=
       mkMetadataCollector (namespace c) (environment c) (deployment c)
         (organizationMetadataMetric c) (spaceMetadataMetric c)
         (applicationMetadataMetric c)
         (metadataScrapesTotalMetric c) v
         (lastMetadataScrapeErrorMetric c)
         (lastMetadataScrapeTimestampMetric c)
         (lastMetadataScrapeDurationSecondsMetric c) |}.

Definition lastMetadataScrapeErrorMetric_ : Ref Gauge :=
  {| rget := lastMetadataScrapeErrorMetric;
     rset v c :=
       mkMetadataCollector (namespace c) (environment c) (deployment c)
         (organizationMetadataMetric c) (spaceMetadataMetric c)
         (applicationMetadataMetric c)
         (metadataScrapesTotalMetric c) (metadataScrapeErrorsTotalMetric c)
         v
         (lastMetadataScrapeTimestampMetric c)
         (lastMetadataScrapeDurationSecondsMetric c) |}.

Definition lastMetadataScrapeTimestampMetric_ : Ref Gauge :=
  {| rget := lastMetadataScrapeTimestampMetric;
     rset v c :=
       mkMetadataCollector (namespace c) (environment c) (deployment c)
         (organizationMetadataMetric c) (spaceMetadataMetric c)
         (applicationMetadataMetric c)
         (metadataScrapesTotalMetric c) (metadataScrapeErrorsTotalMetric c)
         (lastMetadataScrapeErrorMetric c)
         v
         (lastMetadataScrapeDurationSecondsMetric c) |}.

Definition lastMetadataScrapeDurationSecondsMetric_ : Ref Gauge :=
  {| rget := lastMetadataScrapeDurationSecondsMetric;
     rset v c :=
       mkMetadataCollector (namespace c) (environment c) (deployment c)
         (organizationMetadataMetric c) (spaceMetadataMetric c)
         (applicationMetadataMetric c)
         (metadataScrapesTotalMetric c) (metadataScrapeErrorsTotalMetric c)
         (lastMetadataScrapeErrorMetric c)
         (lastMetadataScrapeTimestampMetric c)
         v |}.

(** *** reportMetadataMetrics *)

Definition reportMetadataMetrics (objs : CFObjects) : M (option error) :=
  (* Report organization metadata *)
  forM_ (Organizations objs) (λ org,
    forM_ (map_to_list (Labels (Metadata org))) (λ kv,
      let '(key, value) := kv in
      WithSet organizationMetadataMetric_
        [("organization_id", GUID org);
         ("organization_name", Name org);
         ("label_key", key);
         ("label_value", value)] 1%float));;
  (* Report space metadata *)
  forM_ (Spaces objs) (λ space,
    match relationshipGUID space "organization" with
    | None =>
        Warnf ("Space " +:+ GUID space +:+ " has no organization relationship")
    | Some orgGUID =>
        match OrganizationsMap objs !! orgGUID with
        | None =>
            Warnf ("Organization " +:+ orgGUID +:+ " not found for space "
                   +:+ GUID space)
        | Some org =>
            forM_ (map_to_list (Labels (Metadata space))) (λ kv,
              let '(key, value) := kv in
              WithSet spaceMetadataMetric_
                [("space_id", GUID space);
                 ("space_name", Name space);
                 ("organization_id", GUID org);
                 ("organization_name", Name org);
                 ("label_key", key);
                 ("label_value", value)] 1%float)
        end
    end);;
  (* Report application metadata with org and space metadata *)
  forM_ (Applications objs) (λ app,
    match relationshipGUID app "space" with
    | None =>
        Warnf ("Application " +:+ GUID app +:+ " has no space relationship")
    | Some spaceGUID =>
        match SpacesMap objs !! spaceGUID with
        | None =>
            Warnf ("Space " +:+ spaceGUID +:+ " not found for application "
                   +:+ GUID app)
        | Some space =>
            match relationshipGUID space "organization" with
            | None =>
                Warnf ("Space " +:+ GUID space
                       +:+ " has no organization relationship")
            | Some orgGUID =>
                match OrganizationsMap objs !! orgGUID with
                | None =>
                    Warnf ("Organization " +:+ orgGUID
                           +:+ " not found for space " +:+ GUID space)
                | Some org =>
                    (* Report application's own metadata *)
                    forM_ (map_to_list (Labels (Metadata app))) (λ kv,
                      let '(key, value) := kv in
                      WithSet applicationMetadataMetric_
                        [("application_id", GUID app);
                         ("application_name", Name app);
                         ("organization_id", GUID org);
                         ("organization_name", Name org);
                         ("space_id", GUID space);
                         ("space_name", Name space);
                         ("label_key", key);
                         ("label_value", value)] 1%float);;
                    (* Report organization's metadata for this application *)
                    forM_ (map_to_list (Labels (Metadata org))) (λ kv,
                      let '(key, value) := kv in
                      WithSet applicationMetadataMetric_
                        [("application_id", GUID app);
                         ("application_name", Name app);
                         ("organization_id", GUID org);
                         ("organization_name", Name org);
                         ("space_id", GUID space);
                         ("space_name", Name space);
                         ("label_key", "org_" +:+ key);
                         ("label_value", value)] 1%float);;
                    (* Report space's metadata for this application *)
                    forM_ (map_to_list (Labels (Metadata space))) (λ kv,
                      let '(key, value) := kv in
                      WithSet applicationMetadataMetric_
                        [("application_id", GUID app);
                         ("application_name", Name app);
                         ("organization_id", GUID org);
                         ("organization_name", Name org);
                         ("space_id", GUID space);
                         ("space_name", Name space);
                         ("label_key", "space_" +:+ key);
                         ("label_value", value)] 1%float)
                end
            end
        end
    end);;
  send organizationMetadataMetric_ GaugeVec_Collect;;
  send spaceMetadataMetric_ GaugeVec_Collect;;
  send applicationMetadataMetric_ GaugeVec_Collect;;
  mret None.

(** *** Collect

    [now] is the reading [time.Now().Unix()] of line 147. *)
Definition Collect (objs : CFObjects) (now : Z) : M unit :=
  errorMetric ←
    match Error objs with
    | Some _ =>
        modify metadataScrapeErrorsTotalMetric_ Inc;;
        mret 1%float
    | None =>
        err ← reportMetadataMetrics objs;
        match err with
        | Some _ =>
            modify metadataScrapeErrorsTotalMetric_ Inc;;
            mret 1%float
        | None => mret 0%float
        end
    end;
  send metadataScrapeErrorsTotalMetric_ Counter_Collect;;
  modify metadataScrapesTotalMetric_ Inc;;
  send metadataScrapesTotalMetric_ Counter_Collect;;
  modify lastMetadataScrapeErrorMetric_ (Gauge_Set errorMetric);;
  send lastMetadataScrapeErrorMetric_ Gauge_Collect;;
  modify lastMetadataScrapeTimestampMetric_ (Gauge_Set (float64_of_Z now));;
  send lastMetadataScrapeTimestampMetric_ Gauge_Collect;;
  modify lastMetadataScrapeDurationSecondsMetric_ (Gauge_Set (Took objs));;
  send lastMetadataScrapeDurationSecondsMetric_ Gauge_Collect.

End Collectors.

(* ===================================================================== *)
(** ** Package filters *)
(* ===================================================================== *)

Module Filters.

(** Modelled from the spec: package [filters] is not among the sources.
    The filter set "exposes a single query: is category C enabled? over a
    fixed enumeration of categories". *)
Inductive Category :=
| Applications
| Buildpacks
| Domains
| Events
| IsolationSegments
| Metadata
| Organizations
| Routes
| SecurityGroups
| ServiceBindings
| ServiceInstances
| ServicePlans
| ServiceRouteBindings
| Services
| Spaces
| Stacks
| Tasks.

Record Filter := mkFilter { activated : Category → bool }.

Definition Enabled (f : Filter) (c : Category) : bool := activated f c.

(** Modelled from the spec: "enabled if any of these flags". *)
Definition Any (f : Filter) (any : list Category) : bool :=
  existsb (Enabled f) any.

End Filters.

(* ===================================================================== *)
(** ** Package fetcher *)
(* ===================================================================== *)

Module Fetcher.
Import Models.

Record CFConfig := mkCFConfig {
  SkipSSLValidation : bool;
  URL : string;
  ClientID : string;
  ClientSecret : string;
  Username : string;
  Password : string
}.

(** The fetch methods [workInit] hands to the worker, by name. *)
Inductive WorkHandler :=
| fetchInfo
| fetchOrgs
| fetchSpaces
| fetchApplications
| fetchOrgQuotas
| fetchSpaceQuotas
| fetchDomains
| fetchProcesses
| fetchRoutes
| fetchRouteServices
| fetchSecurityGroups
| fetchStacks
| fetchBuildpacks
| fetchTasks
| fetchServiceBrokers
| fetchServiceOfferings
| fetchServiceInstances
| fetchServicePlans
| fetchIsolationSegments
| fetchServiceBindings
| fetchServiceRouteBindings
| fetchUsers
| fetchEvents.

Record Work := mkWork { name : string; handler : WorkHandler }.

(** Modelled from the spec: the worker is not among the sources.  "Each
    fetchable category is registered as a named task bound to a fetch
    function"; the plan is the list of the tasks registered, in order. *)
Record Worker := mkWorker {
  threads : Z;
  filter : Filters.Filter;
  list_ : list Work
}.

Definition NewWorker (threads : Z) (filter : Filters.Filter) : Worker :=
  {| threads := threads; filter := filter; list_ := [] |}.

(** Modelled from the spec: a new plan is built for each snapshot. *)
Definition Reset_ (w : Worker) : Worker :=
  {| threads := threads w; filter := filter w; list_ := [] |}.

(** Modelled from the spec: a category "unconditionally required". *)
Definition Push (name : string) (h : WorkHandler) (w : Worker) : Worker :=
  {| threads := threads w; filter := filter w;
     list_ := list_ w ++ [mkWork name h] |}.

(** Modelled from the spec: a category "is included in the plan if ... any
    of its governing filter flags is enabled". *)
Definition PushIf (name : string) (h : WorkHandler)
    (any : list Filters.Category) (w : Worker) : Worker :=
  if Filters.Any (filter w) any then Push name h w else w.

Record Fetcher := mkFetcher {
  config : CFConfig;
  worker : Worker
}.

Definition NewFetcher (threads : Z) (config : CFConfig)
    (filter : Filters.Filter) : Fetcher :=
  {| config := config; worker := NewWorker threads filter |}.

Definition workInit (c : Fetcher) : Fetcher :=
  let w := Reset_ (worker c) in
  let w := Push "info" fetchInfo w in
  (* Always fetch organizations and spaces if metadata is enabled *)
  let w :=
    if Filters.Enabled (filter w) Filters.Metadata then
      let w := Push "organizations" fetchOrgs w in
      let w := Push "spaces" fetchSpaces w in
      Push "applications" fetchApplications w
    else
      let w := PushIf "organizations" fetchOrgs
                 [Filters.Applications; Filters.Organizations] w in
      let w := PushIf "spaces" fetchSpaces
                 [Filters.Applications; Filters.Spaces] w in
      PushIf "applications" fetchApplications [Filters.Applications] w in
  let w := PushIf "org_quotas" fetchOrgQuotas [Filters.Organizations] w in
  let w := PushIf "space_quotas" fetchSpaceQuotas [Filters.Spaces] w in
  let w := PushIf "domains" fetchDomains [Filters.Domains] w in
  let w := PushIf "process" fetchProcesses [Filters.Applications] w in
  let w := PushIf "routes" fetchRoutes [Filters.Routes] w in
  let w := PushIf "route_services" fetchRouteServices [Filters.Routes] w in
  let w := PushIf "security_groups" fetchSecurityGroups
             [Filters.SecurityGroups] w in
  let w := PushIf "stacks" fetchStacks [Filters.Stacks] w in
  let w := PushIf "buildpacks" fetchBuildpacks [Filters.Buildpacks] w in
  let w := PushIf "tasks" fetchTasks [Filters.Tasks] w in
  let w := PushIf "service_brokers" fetchServiceBrokers
             [Filters.Services] w in
  let w := PushIf "service_offerings" fetchServiceOfferings
             [Filters.Services] w in
  let w := PushIf "service_instances" fetchServiceInstances
             [Filters.ServiceInstances] w in
  let w := PushIf "service_plans" fetchServicePlans
             [Filters.ServicePlans] w in
  let w := PushIf "segments" fetchIsolationSegments
             [Filters.IsolationSegments] w in
  let w := PushIf "service_bindings" fetchServiceBindings
             [Filters.ServiceBindings] w in
  let w := PushIf "service_route_bindings" fetchServiceRouteBindings
             [Filters.ServiceRouteBindings] w in
  let w := PushIf "users" fetchUsers [Filters.Events] w in
  let w := PushIf "events" fetchEvents [Filters.Events] w in
  {| config := config c; worker := w |}.

Section Fetch.
(** The session constructor and the worker's [Do] are not among the
    sources; [fetch] is embedded over any pair of them.  [Do] receives
    the plan (inside the worker), the session and the snapshot, runs
    the task functions and returns the snapshot they wrote into
    together with the aggregate error. *)
Context {SessionExt : Type}.
Variable NewSessionExt : CFConfig → SessionExt + error.
Variable Do : Worker → SessionExt → CFObjects → CFObjects * option error.

(** The state [fetch] runs in: the fetcher and the logger. *)
Definition fetch (c : Fetcher) (logs : list Log.Entry)
  : CFObjects * Fetcher * list Log.Entry :=
  let result := NewCFObjects in
  match NewSessionExt (config c) with
  | inr err =>
      let logs :=
        logs ++ [Log.mkEntry Log.ErrorLevel
                   "unable to initialize cloud foundry clients"
                   (Some err)] in
      let result := setError (Some err) result in
      (result, c, logs)
  | inl session =>
      let c := workInit c in
      let '(result, err) := Do (worker c) session result in
      let result := setError err result in
      (result, c, logs)
  end.
End Fetch.

End Fetcher.

(* ===================================================================== *)
(** ** What one pass writes, in closed form *)
(* ===================================================================== *)

Module Render.
Import Prometheus Models Collectors.

(** The label values of the children that the loops of
    [reportMetadataMetrics] set for one entity: the identity [ident] of
    the entity and of its resolved ancestors, then one key and value per
    label, the key under [prefix]. *)
Definition labelChildren (ident : list string) (prefix : string)
    (e : Entity) : list (list string) :=
  (λ kv : string * string, ident ++ [prefix +:+ kv.1; kv.2])
    <$> map_to_list (Labels (Metadata e)).

Definition orgChildren (org : Entity) : list (list string) :=
  labelChildren [GUID org; Name org] "" org.

(** The organization a space resolves to (lines 179-188, 213-222). *)
Definition resolveOrg (objs : CFObjects) (space : Entity) : option Entity :=
  orgGUID ← relationshipGUID space "organization";
  OrganizationsMap objs !! orgGUID.

(** The space and organization an application resolves to
    (lines 203-222). *)
Definition resolveApp (objs : CFObjects) (app : Entity)
  : option (Entity * Entity) :=
  spaceGUID ← relationshipGUID app "space";
  space ← SpacesMap objs !! spaceGUID;
  org ← resolveOrg objs space;
  Some (space, org).

Definition spaceChildren (objs : CFObjects) (space : Entity)
  : list (list string) :=
  match resolveOrg objs space with
  | Some org =>
      labelChildren [GUID space; Name space; GUID org; Name org] "" space
  | None => []
  end.

Definition appIdent (app space org : Entity) : list string :=
  [GUID app; Name app; GUID org; Name org; GUID space; Name space].

Definition appChildren (objs : CFObjects) (app : Entity)
  : list (list string) :=
  match resolveApp objs app with
  | Some (space, org) =>
      labelChildren (appIdent app space org) "" app ++
      labelChildren (appIdent app space org) "org_" org ++
      labelChildren (appIdent app space org) "space_" space
  | None => []
  end.



(** The warning a space is skipped with (lines 180-188, 214-222). *)
Definition orgWarning (objs : CFObjects) (space : Entity)
  : list Log.Entry :=
  match relationshipGUID space "organization" with
  | None =>
      [Log.Warn ("Space " +:+ GUID space
                 +:+ " has no organization relationship")]
  | Some orgGUID =>
      match OrganizationsMap objs !! orgGUID with
      | None =>
          [Log.Warn ("Organization " +:+ orgGUID
                     +:+ " not found for space " +:+ GUID space)]
      | Some _ => []
      end
  end.

(** The warning an application is skipped with (lines 204-222). *)
Definition appWarning (objs : CFObjects) (app : Entity)
  : list Log.Entry :=
  match relationshipGUID app "space" with
  | None =>
      [Log.Warn ("Application " +:+ GUID app
                 +:+ " has no space relationship")]
  | Some spaceGUID =>
      match SpacesMap objs !! spaceGUID with
      | None =>
          [Log.Warn ("Space " +:+ spaceGUID
                     +:+ " not found for application " +:+ GUID app)]
      | Some space => orgWarning objs space
      end
  end.



(** Setting the children [keys] of a vector to 1, one after the other. *)
Definition setAll (keys : list (list string)) (v : GaugeVec) : GaugeVec :=
  foldl (λ v k, Set_ k 1%float v) v keys.

(** The state after the children [keys] of the vector behind [r] were set
    and the entries [ws] were logged. *)
Definition written (r : Ref GaugeVec) (keys : list (list string))
    (ws : list Log.Entry) (s : State) : State :=
  {| collector := rset r (setAll keys (rget r (collector s))) (collector s);
     ch := ch s;
     logs := logs s ++ ws |}.

(** The state [reportMetadataMetrics objs] leaves. *)
Definition rendered (objs : CFObjects) (s : State) : State :=
  let s := written organizationMetadataMetric_
             (Organizations objs ≫= orgChildren) [] s in
  let s := written spaceMetadataMetric_
             (Spaces objs ≫= spaceChildren objs)
             (Spaces objs ≫= orgWarning objs) s in
  let s := written applicationMetadataMetric_
             (Applications objs ≫= appChildren objs)
             (Applications objs ≫= appWarning objs) s in
  {| collector := collector s;
     ch := ch s
           ++ GaugeVec_Collect (organizationMetadataMetric (collector s))
           ++ GaugeVec_Collect (spaceMetadataMetric (collector s))
           ++ GaugeVec_Collect (applicationMetadataMetric (collector s));
     logs := logs s |}.

(** The scrape-health statements of [Collect] (lines 142-150), run after
    the flag [errorMetric] was decided. *)
Definition health (errorMetric : float) (took : float) (now : Z)
    (s : State) : State :=
  let c := collector s in
  let errors := metadataScrapeErrorsTotalMetric c in
  let scrapes := Inc (metadataScrapesTotalMetric c) in
  let lastError := Gauge_Set errorMetric (lastMetadataScrapeErrorMetric c) in
  let lastTimestamp :=
    Gauge_Set (float64_of_Z now) (lastMetadataScrapeTimestampMetric c) in
  let lastDuration :=
    Gauge_Set took (lastMetadataScrapeDurationSecondsMetric c) in
  {| collector :=
       mkMetadataCollector (namespace c) (environment c) (deployment c)
         (organizationMetadataMetric c) (spaceMetadataMetric c)
         (applicationMetadataMetric c)
         scrapes errors lastError lastTimestamp lastDuration;
     ch := ch s ++ Counter_Collect errors ++ Counter_Collect scrapes
           ++ Gauge_Collect lastError ++ Gauge_Collect lastTimestamp
           ++ Gauge_Collect lastDuration;
     logs := logs s |}.

(** The descriptors of a collector's eight metric objects. *)
Definition descs (c : MetadataCollector) : list Desc :=
  [gv_desc (organizationMetadataMetric c);
   gv_desc (spaceMetadataMetric c);
   gv_desc (applicationMetadataMetric c);
   c_desc (metadataScrapesTotalMetric c);
   c_desc (metadataScrapeErrorsTotalMetric c);
   g_desc (lastMetadataScrapeErrorMetric c);
   g_desc (lastMetadataScrapeTimestampMetric c);
   g_desc (lastMetadataScrapeDurationSecondsMetric c)].

(** A collector as [NewMetadataCollector] builds it and [Collect] keeps
    it: its metric objects carry the descriptors given at construction;
    their contents are arbitrary. *)
Definition constructed (c : MetadataCollector) : Prop :=
  descs c =
  descs (NewMetadataCollector (namespace c) (environment c) (deployment c)).

(** The laws of a field that points to a vector. *)
Class LawfulRef (r : Ref GaugeVec) := {
  get_set v c : rget r (rset r v c) = v;
  set_set v v' c : rset r v (rset r v' c) = rset r v c;
  set_get c : rset r (rget r c) c = c;
  set_constructed v c :
    gv_desc v = gv_desc (rget r c) → constructed c → constructed (rset r v c)
}.

#[global] Instance Desc_eq_dec : EqDecision Desc.
Proof. solve_decision. Defined.

(** The detail metrics: the samples of the three metadata vectors. *)
Definition detail (c : MetadataCollector) (m : Metric) : Prop :=
  m_desc m = gv_desc (organizationMetadataMetric c) ∨
  m_desc m = gv_desc (spaceMetadataMetric c) ∨
  m_desc m = gv_desc (applicationMetadataMetric c).

(** A sample of the organization vector for the organization [o]. *)
Definition orgSample (c : MetadataCollector) (o : Entity) (m : Metric)
  : Prop :=
  m_desc m = gv_desc (organizationMetadataMetric c) ∧
  label "organization_id" m = Some (GUID o) ∧
  label "organization_name" m = Some (Name o).

(** A sample of the space vector for the space [sp]. *)
Definition spaceSample (c : MetadataCollector) (sp : Entity) (m : Metric)
  : Prop :=
  m_desc m = gv_desc (spaceMetadataMetric c) ∧
  label "space_id" m = Some (GUID sp) ∧
  label "space_name" m = Some (Name sp).

(** A sample of the application vector for the application [a]. *)
Definition appSample (c : MetadataCollector) (a : Entity) (m : Metric)
  : Prop :=
  m_desc m = gv_desc (applicationMetadataMetric c) ∧
  label "application_id" m = Some (GUID a) ∧
  label "application_name" m = Some (Name a).

#[global] Instance detail_dec c m : Decision (detail c m).
Proof. unfold detail. apply _. Defined.
#[global] Instance orgSample_dec c o m : Decision (orgSample c o m).
Proof. unfold orgSample. apply _. Defined.
#[global] Instance spaceSample_dec c o m : Decision (spaceSample c o m).
Proof. unfold spaceSample. apply _. Defined.
#[global] Instance appSample_dec c o m : Decision (appSample c o m).
Proof. unfold appSample. apply _. Defined.

(** The samples a collector's three vectors hold. *)
Definition held (c : MetadataCollector) : list Metric :=
  GaugeVec_Collect (organizationMetadataMetric c) ++
  GaugeVec_Collect (spaceMetadataMetric c) ++
  GaugeVec_Collect (applicationMetadataMetric c).

(** The samples the loops of a pass over [objs] set, each with value 1. *)
Definition passSamples (c : MetadataCollector) (objs : CFObjects)
  : list Metric :=
  ((λ lvs, mkMetric (gv_desc (organizationMetadataMetric c)) lvs 1%float)
     <$> (Organizations objs ≫= orgChildren)) ++
  ((λ lvs, mkMetric (gv_desc (spaceMetadataMetric c)) lvs 1%float)
     <$> (Spaces objs ≫= spaceChildren objs)) ++
  ((λ lvs, mkMetric (gv_desc (applicationMetadataMetric c)) lvs 1%float)
     <$> (Applications objs ≫= appChildren objs)).

(** Two samples of the same child of a vector. *)
Definition sameChild (m m' : Metric) : Prop :=
  m_desc m = m_desc m' ∧ m_labelValues m = m_labelValues m'.

#[global] Instance sameChild_dec m m' : Decision (sameChild m m').
Proof. unfold sameChild. apply _. Defined.

(** The state a method starts in when nothing was sent or logged yet. *)
Definition start (c : MetadataCollector) : State :=
  {| collector := c; ch := []; logs := [] |}.

End Render.

(* ===================================================================== *)
(** ** Concrete snapshots and collectors *)
(* ===================================================================== *)

Module Examples.
Import Prometheus Models Collectors.

Definition c0 : MetadataCollector := NewMetadataCollector "cf" "test" "bosh".

Definition labels (l : list (string * string)) : ResourceMetadata :=
  {| Labels := list_to_map l |}.

(** The end-to-end example: organization [o1], space [s1] in [o1],
    application [a1] in [s1]. *)
Definition o1 : Entity :=
  {| GUID := "o1"; Name := "org1"; Metadata := labels [("team", "x")];
     Relationships := ∅ |}.

Definition s1 : Entity :=
  {| GUID := "s1"; Name := "space1"; Metadata := labels [];
     Relationships := {[ "organization" := ToOne "o1" ]} |}.

Definition a1 : Entity :=
  {| GUID := "a1"; Name := "app1"; Metadata := labels [("env", "prod")];
     Relationships := {[ "space" := ToOne "s1" ]} |}.

Definition snapshot1 : CFObjects :=
  {| Organizations := [o1]; Spaces := [s1]; Applications := [a1];
     OrganizationsMap := {[ "o1" := o1 ]}; SpacesMap := {[ "s1" := s1 ]};
     Error := None; Took := 0.25%float |}.

(** The next snapshot of the same platform: [o1] lost its label. *)
Definition o1' : Entity :=
  {| GUID := "o1"; Name := "org1"; Metadata := labels [];
     Relationships := ∅ |}.

Definition snapshot2 : CFObjects :=
  {| Organizations := [o1']; Spaces := [s1]; Applications := [];
     OrganizationsMap := {[ "o1" := o1' ]}; SpacesMap := {[ "s1" := s1 ]};
     Error := None; Took := 0.5%float |}.



(** Entities with relationship gaps: a space without organization
    relationship, an application whose space is not in the index. *)
Definition s2 : Entity :=
  {| GUID := "s2"; Name := "space2"; Metadata := labels [("tier", "gold")];
     Relationships := ∅ |}.



(** A snapshot whose fetch failed. *)
Definition failed : CFObjects :=
  {| Organizations := [o1]; Spaces := []; Applications := [];
     OrganizationsMap := {[ "o1" := o1 ]}; SpacesMap := ∅;
     Error := Some "unable to fetch spaces"; Took := 0.5%float |}.

(** A fetcher whose filter enables applications only, one whose filter
    enables metadata only. *)
Definition config0 : Fetcher.CFConfig :=
  {| Fetcher.SkipSSLValidation := false;
     Fetcher.URL := "https://api.cf.example.org";
     Fetcher.ClientID := "exporter"; Fetcher.ClientSecret := "secret";
     Fetcher.Username := ""; Fetcher.Password := "" |}.

Definition onlyApplications : Filters.Filter :=
  {| Filters.activated c :=
       match c with Filters.Applications => true | _ => false end |}.

Definition onlyMetadata : Filters.Filter :=
  {| Filters.activated c :=
       match c with Filters.Metadata => true | _ => false end |}.

Definition fetcherA : Fetcher.Fetcher :=
  Fetcher.NewFetcher 4 config0 onlyApplications.

Definition fetcherM : Fetcher.Fetcher :=
  Fetcher.NewFetcher 4 config0 onlyMetadata.

(** A session constructor that fails, and a worker that would fill the
    snapshot if it ran. *)
Definition noSession (_ : Fetcher.CFConfig) : unit + error :=
  inr "unable to authenticate".

Definition fillingDo (_ : Fetcher.Worker) (_ : unit) (result : CFObjects)
  : CFObjects * option error :=
  (setSpaces [s1] result, None).

End Examples.

(* ===================================================================== *)
(** ** The collector's other method and its caller *)
(* ===================================================================== *)

Module Registry.
Import Prometheus Models Collectors Render.

(** [v.Describe(ch)], [c.Describe(ch)], [g.Describe(ch)]: the descriptor
    of the metric object is sent on the descriptor channel. *)
Definition GaugeVec_Describe (v : GaugeVec) : list Desc := [gv_desc v].
Definition Counter_Describe (c : Counter) : list Desc := [c_desc c].
Definition Gauge_Describe (g : Gauge) : list Desc := [g_desc g].

(** [Describe] (lines 153-162): what the method sends on [ch]. *)
Definition Describe (c : MetadataCollector) : list Desc :=
  GaugeVec_Describe (organizationMetadataMetric c) ++
  GaugeVec_Describe (spaceMetadataMetric c) ++
  GaugeVec_Describe (applicationMetadataMetric c) ++
  Counter_Describe (metadataScrapesTotalMetric c) ++
  Counter_Describe (metadataScrapeErrorsTotalMetric c) ++
  Gauge_Describe (lastMetadataScrapeErrorMetric c) ++
  Gauge_Describe (lastMetadataScrapeTimestampMetric c) ++
  Gauge_Describe (lastMetadataScrapeDurationSecondsMetric c).

(** Successive scrapes of one collector: [Collect] is invoked once per
    scrape, with the snapshot fetched for it and the clock reading. *)
Definition scrapes (l : list (CFObjects * Z)) : M unit :=
  forM_ l (λ on, Collect on.1 on.2).

(** The samples a collector holds are well formed: each has the value 1
    and as many label values as its descriptor has label names. *)
Definition wellFormed (c : MetadataCollector) : Prop :=
  constructed c ∧
  ∀ m, m ∈ held c →
       m_value m = 1%float ∧
       length (m_labelValues m) = length (variableLabels (m_desc m)).

(** The snapshots of a sequence of scrapes that carry a top-level error. *)
Definition failedScrapes (l : list (CFObjects * Z)) : list (CFObjects * Z) :=
  filter (λ on, is_Some (Error on.1)) l.

End Registry.

(* ===================================================================== *)
(** ** GetObjects *)
(* ===================================================================== *)

Module Snapshot.
Import Models Fetcher.

Definition Infof (msg : string) : Log.Entry :=
  Log.mkEntry Log.InfoLevel msg None.

(** [data.Took = took] *)
Definition setTook (took : float) (o : CFObjects) : CFObjects :=
  {| Organizations := Organizations o; Spaces := Spaces o;
     Applications := Applications o;
     OrganizationsMap := OrganizationsMap o; SpacesMap := SpacesMap o;
     Error := Error o; Took := took |}.

Section GetObjects.
(** As for [fetch], over any session constructor and any worker [Do].
    [Sprintf0f] is the formatting of a [float64] under the verb [%.0f];
    [took] is the reading [time.Since(start).Seconds()] of line 54. *)
Context {SessionExt : Type}.
Variable NewSessionExt : CFConfig → SessionExt + error.
Variable Do : Worker → SessionExt → CFObjects → CFObjects * option error.
Variable Sprintf0f : float → string.

Definition GetObjects (c : Fetcher) (took : float) (logs : list Log.Entry)
  : CFObjects * Fetcher * list Log.Entry :=
  let logs := logs ++ [Infof "collecting objects from cloud foundry API"] in
  let '(data, c, logs) := fetch NewSessionExt Do c logs in
  let logs :=
    logs ++ [Infof ("collecting objects from cloud foundry API (done, "
                    +:+ Sprintf0f took +:+ " sec)")] in
  let data := setTook took data in
  (data, c, logs).

(** One scrape: the snapshot is fetched and handed to the collector. *)
Definition scrape (f : Fetcher) (took : float) (now : Z)
    (s : Collectors.State)
  : option (Fetcher * Collectors.State) :=
  let '(data, f, logs) := GetObjects f took (Collectors.logs s) in
  match Collectors.Collect data now
          (Collectors.mkState (Collectors.collector s) (Collectors.ch s) logs)
  with
  | Some (_, s') => Some (f, s')
  | None => None
  end.

End GetObjects.

End Snapshot.

(* ===================================================================== *)
(** ** The plan of workInit, in closed form *)
(* ===================================================================== *)

Module Plan.
Import Fetcher.

(** The task [w] if [b], no task otherwise. *)
Definition optional (b : bool) (w : Work) : list Work :=
  if b then [w] else [].

(** The tasks [workInit] registers under the filter [f], in order. *)
Definition plan (f : Filters.Filter) : list Work :=
  [mkWork "info" fetchInfo] ++
  (if Filters.Enabled f Filters.Metadata then
     [mkWork "organizations" fetchOrgs; mkWork "spaces" fetchSpaces;
      mkWork "applications" fetchApplications]
   else
     optional (Filters.Any f [Filters.Applications; Filters.Organizations])
       (mkWork "organizations" fetchOrgs) ++
     optional (Filters.Any f [Filters.Applications; Filters.Spaces])
       (mkWork "spaces" fetchSpaces) ++
     optional (Filters.Any f [Filters.Applications])
       (mkWork "applications" fetchApplications)) ++
  optional (Filters.Any f [Filters.Organizations])
    (mkWork "org_quotas" fetchOrgQuotas) ++
  optional (Filters.Any f [Filters.Spaces])
    (mkWork "space_quotas" fetchSpaceQuotas) ++
  optional (Filters.Any f [Filters.Domains]) (mkWork "domains" fetchDomains) ++
  optional (Filters.Any f [Filters.Applications])
    (mkWork "process" fetchProcesses) ++
  optional (Filters.Any f [Filters.Routes]) (mkWork "routes" fetchRoutes) ++
  optional (Filters.Any f [Filters.Routes])
    (mkWork "route_services" fetchRouteServices) ++
  optional (Filters.Any f [Filters.SecurityGroups])
    (mkWork "security_groups" fetchSecurityGroups) ++
  optional (Filters.Any f [Filters.Stacks]) (mkWork "stacks" fetchStacks) ++
  optional (Filters.Any f [Filters.Buildpacks])
    (mkWork "buildpacks" fetchBuildpacks) ++
  optional (Filters.Any f [Filters.Tasks]) (mkWork "tasks" fetchTasks) ++
  optional (Filters.Any f [Filters.Services])
    (mkWork "service_brokers" fetchServiceBrokers) ++
  optional (Filters.Any f [Filters.Services])
    (mkWork "service_offerings" fetchServiceOfferings) ++
  optional (Filters.Any f [Filters.ServiceInstances])
    (mkWork "service_instances" fetchServiceInstances) ++
  optional (Filters.Any f [Filters.ServicePlans])
    (mkWork "service_plans" fetchServicePlans) ++
  optional (Filters.Any f [Filters.IsolationSegments])
    (mkWork "segments" fetchIsolationSegments) ++
  optional (Filters.Any f [Filters.ServiceBindings])
    (mkWork "service_bindings" fetchServiceBindings) ++
  optional (Filters.Any f [Filters.ServiceRouteBindings])
    (mkWork "service_route_bindings" fetchServiceRouteBindings) ++
  optional (Filters.Any f [Filters.Events]) (mkWork "users" fetchUsers) ++
  optional (Filters.Any f [Filters.Events]) (mkWork "events" fetchEvents).

(** The filter that enables every category. *)
Definition everything : Filters.Filter := {| Filters.activated _ := true |}.

(** The filter that enables no category. *)
Definition nothing : Filters.Filter := {| Filters.activated _ := false |}.

Definition fetcherAll : Fetcher := NewFetcher 4 Examples.config0 everything.

Definition fetcherNone : Fetcher := NewFetcher 4 Examples.config0 nothing.

#[global] Instance WorkHandler_eq_dec : EqDecision WorkHandler.
Proof. solve_decision. Defined.

#[global] Instance Work_eq_dec : EqDecision Work.
Proof. solve_decision. Defined.

End Plan.

(* ===================================================================== *)
(** ** The metadata fetch functions *)
(* ===================================================================== *)

Module MetadataFetch.

Section Resources.
(** The element types of [result.Orgs], [result.Spaces] and [result.Apps]
    are not among the sources; they are taken as parameters, with the two
    things the functions read from an element: its [GUID] and whether its
    [Metadata] is [nil]. *)
Context {Org Space App : Type}.
Variable orgGUID : Org → string.
Variable orgMetadataNil : Org → bool.
Variable spaceGUID : Space → string.
Variable spaceMetadataNil : Space → bool.
Variable appGUID : App → string.
Variable appMetadataNil : App → bool.

(** The three maps of the snapshot that the functions range over and
    assign to. *)
Record Resources := mkResources {
  Orgs : gmap string Org;
  Spaces : gmap string Space;
  Apps : gmap string App
}.

(** [for _, x := range m { if x.Metadata != nil { m[x.GUID] = x } }].
    The loop visits the keys [visits] the map has when it starts; [x] is
    the element the map holds for the key when the loop reaches it.  An
    entry the loop creates or overwrites is held under the GUID of its
    element; visiting it stores it again where it is, so visits of such
    entries need not be listed. *)
Definition reassign {A} (GUID : A → string) (MetadataNil : A → bool)
    (visits : list string) (m : gmap string A) : gmap string A :=
  foldl (λ m k,
           match m !! k with
           | Some x => if MetadataNil x then m else <[GUID x := x]> m
           | None => m
           end)
    m visits.

Definition fetchOrgMetadata (result : Resources) : Resources * option error :=
  ({| Orgs := reassign orgGUID orgMetadataNil (map_to_list (Orgs result)).*1
                (Orgs result);
      Spaces := Spaces result; Apps := Apps result |},
   None).

Definition fetchSpaceMetadata (result : Resources)
  : Resources * option error :=
  ({| Orgs := Orgs result;
      Spaces := reassign spaceGUID spaceMetadataNil
                  (map_to_list (Spaces result)).*1 (Spaces result);
      Apps := Apps result |},
   None).

Definition fetchAppMetadata (result : Resources) : Resources * option error :=
  ({| Orgs := Orgs result; Spaces := Spaces result;
      Apps := reassign appGUID appMetadataNil (map_to_list (Apps result)).*1
                (Apps result) |},
   None).

(** A map that holds every element under its GUID. *)
Definition keyedByGUID {A} (GUID : A → string) (m : gmap string A) : Prop :=
  ∀ k x, m !! k = Some x → GUID x = k.

(** The map [m'] has every key of [m], and each of its entries is the
    entry [m] had under that key or an element of [m] with metadata,
    held under its GUID. *)
Definition rekeyed {A} (GUID : A → string) (MetadataNil : A → bool)
    (m m' : gmap string A) : Prop :=
  (∀ k, is_Some (m !! k) → is_Some (m' !! k)) ∧
  (∀ k x, m' !! k = Some x →
          m !! k = Some x ∨
          (GUID x = k ∧ MetadataNil x = false ∧ ∃ k', m !! k' = Some x)).

End Resources.

End MetadataFetch.

(* ===================================================================== *)
(** ** Concrete scrapes *)
(* ===================================================================== *)

Module Runs.
Import Models.

(** Three scrapes of one collector: the end-to-end snapshot, a failed
    fetch, the snapshot in which [o1] lost its label. *)
Definition threeScrapes : list (CFObjects * Z) :=
  [(Examples.snapshot1, 1700000000%Z);
   (Examples.failed, 1700000060%Z);
   (Examples.snapshot2, 1700000120%Z)].

(** A space of [o1] with a label. *)
Definition s3 : Entity :=
  {| GUID := "s3"; Name := "space3";
     Metadata := Examples.labels [("tier", "gold")];
     Relationships := {[ "organization" := ToOne "o1" ]} |}.


(** A session constructor that succeeds; a worker that fills the
    snapshot and reports the error of one task; a worker all of whose
    tasks succeed. *)
Definition session0 (_ : Fetcher.CFConfig) : unit + error := inl tt.

Definition brokenDo (_ : Fetcher.Worker) (_ : unit) (_ : CFObjects)
  : CFObjects * option error :=
  (Examples.snapshot1, Some "unable to fetch routes").

Definition snapshotDo (_ : Fetcher.Worker) (_ : unit) (_ : CFObjects)
  : CFObjects * option error :=
  (Examples.snapshot1, None).

(** Resources read as a GUID and whether the metadata is [nil]; a
    snapshot that holds each of them under its GUID. *)
Definition resources0
  : @MetadataFetch.Resources (string * bool) (string * bool) (string * bool) :=
  {| MetadataFetch.Orgs := {[ "o1" := ("o1", false) ]};
     MetadataFetch.Spaces := {[ "s1" := ("s1", true) ]};
     MetadataFetch.Apps := {[ "a1" := ("a1", false) ]} |}.

(** The formatting under [%.0f] of a reading below half a second. *)
Definition zeroSeconds (_ : float) : string := "0".

End Runs.

(* ===================================================================== *)
(** ** The panics of the runtime and of the client library

    The embedding above takes the [Metadata] of an entity as present and
    has [With] check the label names alone.  This part adds the two ways
    in which a snapshot makes the collector panic: [e.Metadata.Labels] on
    an entity whose [Metadata] is [nil] (the pointer [fetcher.go] tests
    at lines 114, 124 and 134), and [With] on a label value that is not
    valid UTF-8. *)
(* ===================================================================== *)

Module Runtime.
Import Prometheus Collectors Fetcher.

Definition byte (a : Ascii.ascii) : N := Ascii.N_of_ascii a.

Definition inRange (lo hi : N) (a : Ascii.ascii) : bool :=
  (lo <=? byte a)%N && (byte a <=? hi)%N.

(** The second byte of a sequence of three that starts with [a], of a
    sequence of four: no overlong form, no surrogate, nothing above
    U+10FFFF. *)
Definition second3 (a b : Ascii.ascii) : bool :=
  if (byte a =? 224)%N then inRange 160 191 b
  else if (byte a =? 237)%N then inRange 128 159 b
  else inRange 128 191 b.

Definition second4 (a b : Ascii.ascii) : bool :=
  if (byte a =? 240)%N then inRange 144 191 b
  else if (byte a =? 244)%N then inRange 128 143 b
  else inRange 128 191 b.

(** [utf8.ValidString] *)
Fixpoint ValidString (s : string) : bool :=
  match s with
  | EmptyString => true
  | String a s1 =>
      if (byte a <? 128)%N then ValidString s1
      else if inRange 194 223 a then
        match s1 with
        | String b s2 => inRange 128 191 b && ValidString s2
        | _ => false
        end
      else if inRange 224 239 a then
        match s1 with
        | String b (String c s3) =>
            second3 a b && inRange 128 191 c && ValidString s3
        | _ => false
        end
      else if inRange 240 244 a then
        match s1 with
        | String b (String c (String d s4)) =>
            second4 a b && inRange 128 191 c && inRange 128 191 d
            && ValidString s4
        | _ => false
        end
      else false
  end.

(** An entity as [Models.Entity], its [Metadata] a pointer. *)
Record Entity := mkEntity {
  GUID : string;
  Name : string;
  Metadata : option Models.ResourceMetadata;
  Relationships : gmap string Models.Relationship
}.

(** [guid, ok := e.Relationships[name].Data.GUID] *)
Definition relationshipGUID (e : Entity) (name : string) : option string :=
  match Relationships e !! name with
  | Some (Models.ToOne guid) => Some guid
  | Some Models.Empty => None
  | None => None
  end.

Record CFObjects := mkCFObjects {
  Organizations : list Entity;
  Spaces : list Entity;
  Applications : list Entity;
  OrganizationsMap : gmap string Entity;
  SpacesMap : gmap string Entity;
  Error : option error;
  Took : float
}.

Definition NewCFObjects : CFObjects :=
  {| Organizations := []; Spaces := []; Applications := [];
     OrganizationsMap := ∅; SpacesMap := ∅;
     Error := None; Took := 0%float |}.

Definition setError (e : option error) (o : CFObjects) : CFObjects :=
  {| Organizations := Organizations o; Spaces := Spaces o;
     Applications := Applications o;
     OrganizationsMap := OrganizationsMap o; SpacesMap := SpacesMap o;
     Error := e; Took := Took o |}.

(** [data.Took = took] *)
Definition setTook (took : float) (o : CFObjects) : CFObjects :=
  {| Organizations := Organizations o; Spaces := Spaces o;
     Applications := Applications o;
     OrganizationsMap := OrganizationsMap o; SpacesMap := SpacesMap o;
     Error := Error o; Took := took |}.

(** [v.With(labels)]: the child for [labels].  The call panics unless
    [labels] has as many entries as the vector has variable labels, every
    label value is valid UTF-8 and every variable label is named. *)
Definition With (v : GaugeVec) (labels : list (string * string))
  : option (list string) :=
  if decide (length labels = length (variableLabels (gv_desc v)))
  then
    if forallb (λ nv, ValidString nv.2) labels
    then mapM (λ n, assoc n labels) (variableLabels (gv_desc v))
    else None
  else None.

(** [r.With(labels).Set(x)] *)
Definition WithSet (r : Ref GaugeVec) (labels : list (string * string))
    (x : float) : M unit := λ s,
  match With (rget r (collector s)) labels with
  | Some lvs => modify r (Set_ lvs x) s
  | None => None
  end.

(** [p.Labels] for the pointer [p]: dereferencing [nil] panics. *)
Definition Labels (p : option Models.ResourceMetadata)
  : M (gmap string string) := λ s,
  match p with
  | Some md => Some (Models.Labels md, s)
  | None => None
  end.

(** *** reportMetadataMetrics *)

Definition reportMetadataMetrics (objs : CFObjects) : M (option error) :=
  (* Report organization metadata *)
  forM_ (Organizations objs) (λ org,
    labels ← Labels (Metadata org);
    forM_ (map_to_list labels) (λ kv,
      let '(key, value) := kv in
      WithSet organizationMetadataMetric_
        [("organization_id", GUID org);
         ("organization_name", Name org);
         ("label_key", key);
         ("label_value", value)] 1%float));;
  (* Report space metadata *)
  forM_ (Spaces objs) (λ space,
    match relationshipGUID space "organization" with
    | None =>
        Warnf ("Space " +:+ GUID space +:+ " has no organization relationship")
    | Some orgGUID =>
        match OrganizationsMap objs !! orgGUID with
        | None =>
            Warnf ("Organization " +:+ orgGUID +:+ " not found for space "
                   +:+ GUID space)
        | Some org =>
            labels ← Labels (Metadata space);
            forM_ (map_to_list labels) (λ kv,
              let '(key, value) := kv in
              WithSet spaceMetadataMetric_
                [("space_id", GUID space);
                 ("space_name", Name space);
                 ("organization_id", GUID org);
                 ("organization_name", Name org);
                 ("label_key", key);
                 ("label_value", value)] 1%float)
        end
    end);;
  (* Report application metadata with org and space metadata *)
  forM_ (Applications objs) (λ app,
    match relationshipGUID app "space" with
    | None =>
        Warnf ("Application " +:+ GUID app +:+ " has no space relationship")
    | Some spaceGUID =>
        match SpacesMap objs !! spaceGUID with
        | None =>
            Warnf ("Space " +:+ spaceGUID +:+ " not found for application "
                   +:+ GUID app)
        | Some space =>
            match relationshipGUID space "organization" with
            | None =>
                Warnf ("Space " +:+ GUID space
                       +:+ " has no organization relationship")
            | Some orgGUID =>
                match OrganizationsMap objs !! orgGUID with
                | None =>
                    Warnf ("Organization " +:+ orgGUID
                           +:+ " not found for space " +:+ GUID space)
                | Some org =>
                    (* Report application's own metadata *)
                    labels ← Labels (Metadata app);
                    forM_ (map_to_list labels) (λ kv,
                      let '(key, value) := kv in
                      WithSet applicationMetadataMetric_
                        [("application_id", GUID app);
                         ("application_name", Name app);
                         ("organization_id", GUID org);
                         ("organization_name", Name org);
                         ("space_id", GUID space);
                         ("space_name", Name space);
                         ("label_key", key);
                         ("label_value", value)] 1%float);;
                    (* Report organization's metadata for this application *)
                    labels ← Labels (Metadata org);
                    forM_ (map_to_list labels) (λ kv,
                      let '(key, value) := kv in
                      WithSet applicationMetadataMetric_
                        [("application_id", GUID app);
                         ("application_name", Name app);
                         ("organization_id", GUID org);
                         ("organization_name", Name org);
                         ("space_id", GUID space);
                         ("space_name", Name space);
                         ("label_key", "org_" +:+ key);
                         ("label_value", value)] 1%float);;
                    (* Report space's metadata for this application *)
                    labels ← Labels (Metadata space);
                    forM_ (map_to_list labels) (λ kv,
                      let '(key, value) := kv in
                      WithSet applicationMetadataMetric_
                        [("application_id", GUID app);
                         ("application_name", Name app);
                         ("organization_id", GUID org);
                         ("organization_name", Name org);
                         ("space_id", GUID space);
                         ("space_name", Name space);
                         ("label_key", "space_" +:+ key);
                         ("label_value", value)] 1%float)
                end
            end
        end
    end);;
  send organizationMetadataMetric_ GaugeVec_Collect;;
  send spaceMetadataMetric_ GaugeVec_Collect;;
  send applicationMetadataMetric_ GaugeVec_Collect;;
  mret None.

(** *** Collect

    [now] is the reading [time.Now().Unix()] of line 147. *)
Definition Collect (objs : CFObjects) (now : Z) : M unit :=
  errorMetric ←
    match Error objs with
    | Some _ =>
        modify metadataScrapeErrorsTotalMetric_ Inc;;
        mret 1%float
    | None =>
        err ← reportMetadataMetrics objs;
        match err with
        | Some _ =>
            modify metadataScrapeErrorsTotalMetric_ Inc;;
            mret 1%float
        | None => mret 0%float
        end
    end;
  send metadataScrapeErrorsTotalMetric_ Counter_Collect;;
  modify metadataScrapesTotalMetric_ Inc;;
  send metadataScrapesTotalMetric_ Counter_Collect;;
  modify lastMetadataScrapeErrorMetric_ (Gauge_Set errorMetric);;
  send lastMetadataScrapeErrorMetric_ Gauge_Collect;;
  modify lastMetadataScrapeTimestampMetric_ (Gauge_Set (float64_of_Z now));;
  send lastMetadataScrapeTimestampMetric_ Gauge_Collect;;
  modify lastMetadataScrapeDurationSecondsMetric_ (Gauge_Set (Took objs));;
  send lastMetadataScrapeDurationSecondsMetric_ Gauge_Collect.

(** Successive scrapes of one collector. *)
Definition scrapes (l : list (CFObjects * Z)) : M unit :=
  forM_ l (λ on, Collect on.1 on.2).

(** The snapshots of a sequence of scrapes that carry a top-level error. *)
Definition failedScrapes (l : list (CFObjects * Z)) : list (CFObjects * Z) :=
  base.filter (λ on, is_Some (Error on.1)) l.

Section GetObjects.
(** [fetch] and [GetObjects], over any session constructor and any worker
    [Do]; [Sprintf0f] is the formatting under [%.0f], [took] the reading
    [time.Since(start).Seconds()] of line 54. *)
Context {SessionExt : Type}.
Variable NewSessionExt : CFConfig → SessionExt + error.
Variable Do : Worker → SessionExt → CFObjects → CFObjects * option error.
Variable Sprintf0f : float → string.

Definition fetch (c : Fetcher) (logs : list Log.Entry)
  : CFObjects * Fetcher * list Log.Entry :=
  let result := NewCFObjects in
  match NewSessionExt (config c) with
  | inr err =>
      let logs :=
        logs ++ [Log.mkEntry Log.ErrorLevel
                   "unable to initialize cloud foundry clients"
                   (Some err)] in
      let result := setError (Some err) result in
      (result, c, logs)
  | inl session =>
      let c := workInit c in
      let '(result, err) := Do (worker c) session result in
      let result := setError err result in
      (result, c, logs)
  end.

Definition GetObjects (c : Fetcher) (took : float) (logs : list Log.Entry)
  : CFObjects * Fetcher * list Log.Entry :=
  let logs :=
    logs ++ [Snapshot.Infof "collecting objects from cloud foundry API"] in
  let '(data, c, logs) := fetch c logs in
  let logs :=
    logs ++ [Snapshot.Infof
               ("collecting objects from cloud foundry API (done, "
                +:+ Sprintf0f took +:+ " sec)")] in
  let data := setTook took data in
  (data, c, logs).

(** One scrape: the snapshot is fetched and handed to the collector. *)
Definition scrape (f : Fetcher) (took : float) (now : Z) (s : State)
  : option (Fetcher * State) :=
  let '(data, f, logs) := GetObjects f took (logs s) in
  match Collect data now (mkState (collector s) (ch s) logs) with
  | Some (_, s') => Some (f, s')
  | None => None
  end.

End GetObjects.

(** The entity and the snapshot of the embedding above that an entity, a
    snapshot, with metadata stands for. *)
Definition unptr (e : Entity) : Models.Entity :=
  {| Models.GUID := GUID e; Models.Name := Name e;
     Models.Metadata := default (Models.mkMetadata ∅) (Metadata e);
     Models.Relationships := Relationships e |}.

Definition plain (objs : CFObjects) : Models.CFObjects :=
  {| Models.Organizations := unptr <$> Organizations objs;
     Models.Spaces := unptr <$> Spaces objs;
     Models.Applications := unptr <$> Applications objs;
     Models.OrganizationsMap := unptr <$> OrganizationsMap objs;
     Models.SpacesMap := unptr <$> SpacesMap objs;
     Models.Error := Error objs; Models.Took := Took objs |}.

(** The other way round: the metadata is there. *)
Definition ptr (e : Models.Entity) : Entity :=
  {| GUID := Models.GUID e; Name := Models.Name e;
     Metadata := Some (Models.Metadata e);
     Relationships := Models.Relationships e |}.

Definition lift (objs : Models.CFObjects) : CFObjects :=
  {| Organizations := ptr <$> Models.Organizations objs;
     Spaces := ptr <$> Models.Spaces objs;
     Applications := ptr <$> Models.Applications objs;
     OrganizationsMap := ptr <$> Models.OrganizationsMap objs;
     SpacesMap := ptr <$> Models.SpacesMap objs;
     Error := Models.Error objs; Took := Models.Took objs |}.

(** The scrapes of a sequence, snapshot by snapshot in the embedding
    without panics. *)
Definition plainScrapes (l : list (CFObjects * Z))
  : list (Models.CFObjects * Z) :=
  (λ on, (plain on.1, on.2)) <$> l.

(** An entity that carries metadata and whose GUID, name, label keys and
    label values are valid UTF-8. *)
Definition validEntity (e : Entity) : Prop :=
  ValidString (GUID e) = true ∧
  ValidString (Name e) = true ∧
  match Metadata e with
  | Some md =>
      map_Forall (λ k v, ValidString k = true ∧ ValidString v = true)
        (Models.Labels md)
  | None => False
  end.

#[global] Instance validEntity_dec e : Decision (validEntity e).
Proof. unfold validEntity. destruct (Metadata e); apply _. Defined.

(** A snapshot all of whose entities are such, those of the three
    collections and those of the two indexes. *)
Definition ready (objs : CFObjects) : Prop :=
  Forall validEntity (Organizations objs) ∧
  Forall validEntity (Spaces objs) ∧
  Forall validEntity (Applications objs) ∧
  map_Forall (λ _, validEntity) (OrganizationsMap objs) ∧
  map_Forall (λ _, validEntity) (SpacesMap objs).

#[global] Instance ready_dec objs : Decision (ready objs).
Proof. unfold ready. apply _. Defined.




(** A worker all of whose tasks succeed and that returns the end-to-end
    snapshot. *)
Definition snapshotDo (_ : Worker) (_ : unit) (_ : CFObjects)
  : CFObjects * option error :=
  (lift Examples.snapshot1, None).

(** Three scrapes of one collector, as [Runs.threeScrapes]. *)
Definition threeScrapes : list (CFObjects * Z) :=
  [(lift Examples.snapshot1, 1700000000%Z);
   (lift Examples.failed, 1700000060%Z);
   (lift Examples.snapshot2, 1700000120%Z)].

End Runtime.

(* ===================================================================== *)
(** * Properties of the collector *)
(* ===================================================================== *)

Module CollectorFacts.
Import Prometheus Models Collectors Render.

(** *** Running statements *)

Lemma bind_run {A B} (m : M A) (f : A → M B) s :
  (m ≫= f) s = match m s with Some (a, s') => f a s' | None => None end.
Proof. reflexivity. Qed.

Lemma forM__cons {A} (x : A) xs body s :
  forM_ (x :: xs) body s =
  match body x s with Some (_, s') => forM_ xs body s' | None => None end.
Proof. reflexivity. Qed.

#[global] Instance organization_lawful : LawfulRef organizationMetadataMetric_.
Proof.
  split; try reflexivity.
  - by intros [].
  - intros v c Hv Hc. unfold constructed, descs in *. simpl in *.
    by rewrite Hv.
Qed.

#[global] Instance space_lawful : LawfulRef spaceMetadataMetric_.
Proof.
  split; try reflexivity.
  - by intros [].
  - intros v c Hv Hc. unfold constructed, descs in *. simpl in *.
    by rewrite Hv.
Qed.

#[global] Instance application_lawful : LawfulRef applicationMetadataMetric_.
Proof.
  split; try reflexivity.
  - by intros [].
  - intros v c Hv Hc. unfold constructed, descs in *. simpl in *.
    by rewrite Hv.
Qed.

Lemma setAll_desc keys v : gv_desc (setAll keys v) = gv_desc v.
Proof.
  revert v. induction keys as [|k keys IH]; intros v; [done|].
  simpl. by rewrite IH.
Qed.

Lemma setAll_app ks1 ks2 v : setAll (ks1 ++ ks2) v = setAll ks2 (setAll ks1 v).
Proof. apply foldl_app. Qed.

Section Written.
Context (r : Ref GaugeVec) `{!LawfulRef r}.

Lemma written_nil s : written r [] [] s = s.
Proof.
  destruct s as [c out l]. unfold written. simpl.
  by rewrite set_get, app_nil_r.
Qed.

Lemma written_written ks1 ws1 ks2 ws2 s :
  written r ks2 ws2 (written r ks1 ws1 s)
  = written r (ks1 ++ ks2) (ws1 ++ ws2) s.
Proof.
  unfold written. simpl.
  by rewrite get_set, set_set, setAll_app, (assoc_L (++)).
Qed.

Lemma written_constructed ks ws s :
  constructed (collector s) → constructed (collector (written r ks ws s)).
Proof. intros H. simpl. apply set_constructed; [apply setAll_desc | done]. Qed.

(** A loop whose every round sets children of [r] and logs. *)
Lemma forM__written {A} (xs : list A) (body : A → M unit)
    (keysOf : A → list (list string)) (warnsOf : A → list Log.Entry) :
  (∀ x s, x ∈ xs → constructed (collector s) →
          body x s = Some (tt, written r (keysOf x) (warnsOf x) s)) →
  ∀ s, constructed (collector s) →
       forM_ xs body s
       = Some (tt, written r (xs ≫= keysOf) (xs ≫= warnsOf) s).
Proof.
  induction xs as [|x xs IH]; intros Hbody s Hs.
  - simpl. by rewrite written_nil.
  - rewrite forM__cons, Hbody by (done || constructor).
    rewrite IH.
    + by rewrite written_written.
    + intros y s' Hy. apply Hbody. by constructor.
    + by apply written_constructed.
Qed.
End Written.

(** *** The vectors of a constructed collector *)

Lemma constructed_descs c :
  constructed c →
  gv_desc (organizationMetadataMetric c)
  = gv_desc (organizationMetadataMetric
               (NewMetadataCollector (namespace c) (environment c) (deployment c)))
  ∧ gv_desc (spaceMetadataMetric c)
  = gv_desc (spaceMetadataMetric
               (NewMetadataCollector (namespace c) (environment c) (deployment c)))
  ∧ gv_desc (applicationMetadataMetric c)
  = gv_desc (applicationMetadataMetric
               (NewMetadataCollector (namespace c) (environment c) (deployment c))).
Proof.
  unfold constructed, descs. intros H. by simplify_list_eq.
Qed.

Lemma organization_labels c :
  constructed c →
  variableLabels (gv_desc (organizationMetadataMetric c))
  = ["organization_id"; "organization_name"; "label_key"; "label_value"].
Proof. intros (-> & _ & _)%constructed_descs. reflexivity. Qed.

Lemma space_labels c :
  constructed c →
  variableLabels (gv_desc (spaceMetadataMetric c))
  = ["space_id"; "space_name"; "organization_id"; "organization_name";
     "label_key"; "label_value"].
Proof. intros (_ & -> & _)%constructed_descs. reflexivity. Qed.

Lemma application_labels c :
  constructed c →
  variableLabels (gv_desc (applicationMetadataMetric c))
  = ["application_id"; "application_name"; "organization_id";
     "organization_name"; "space_id"; "space_name";
     "label_key"; "label_value"].
Proof. intros (_ & _ & ->)%constructed_descs. reflexivity. Qed.

Lemma NewMetadataCollector_constructed ns env dep :
  constructed (NewMetadataCollector ns env dep).
Proof. reflexivity. Qed.

(** *** The three loops *)

Lemma WithSet_written r `{!LawfulRef r} labels lvs s :
  With (rget r (collector s)) labels = Some lvs →
  WithSet r labels 1%float s = Some (tt, written r [lvs] [] s).
Proof.
  intros H. unfold WithSet. rewrite H. unfold modify, written. simpl.
  by rewrite app_nil_r.
Qed.

Lemma bind_singleton {A B} (f : A → B) (l : list A) :
  l ≫= (λ x, [f x]) = f <$> l.
Proof. induction l as [|x l IH]; [done|]. cbn. by f_equal. Qed.

Lemma bind_nil {A B} (l : list A) : l ≫= (λ _, @nil B) = [].
Proof. by induction l. Qed.

(** One inner loop: a child per label of [e]. *)
Lemma label_round r `{!LawfulRef r} ident prefix e
    (labelsOf : string → string → list (string * string)) s :
  (∀ k v s', constructed (collector s') →
             With (rget r (collector s')) (labelsOf k v)
             = Some (ident ++ [prefix +:+ k; v])) →
  constructed (collector s) →
  forM_ (map_to_list (Labels (Metadata e))) (λ kv,
    let '(key, value) := kv in WithSet r (labelsOf key value) 1%float) s
  = Some (tt, written r (labelChildren ident prefix e) [] s).
Proof.
  intros HWith Hs.
  rewrite (forM__written r _ _
             (λ kv : string * string, [ident ++ [prefix +:+ kv.1; kv.2]])
             (λ _, [])); [|intros [k v] s' _ Hs'|done].
  - by rewrite bind_singleton, bind_nil.
  - by apply WithSet_written, HWith.
Qed.

Lemma With_organization c g n k v :
  constructed c →
  With (organizationMetadataMetric c)
    [("organization_id", g); ("organization_name", n);
     ("label_key", k); ("label_value", v)]
  = Some [g; n; k; v].
Proof.
  intros Hc. unfold With. rewrite (organization_labels c Hc). reflexivity.
Qed.

Lemma With_space c sg sn g n k v :
  constructed c →
  With (spaceMetadataMetric c)
    [("space_id", sg); ("space_name", sn);
     ("organization_id", g); ("organization_name", n);
     ("label_key", k); ("label_value", v)]
  = Some [sg; sn; g; n; k; v].
Proof.
  intros Hc. unfold With. rewrite (space_labels c Hc). reflexivity.
Qed.

Lemma With_application c ag an g n sg sn k v :
  constructed c →
  With (applicationMetadataMetric c)
    [("application_id", ag); ("application_name", an);
     ("organization_id", g); ("organization_name", n);
     ("space_id", sg); ("space_name", sn);
     ("label_key", k); ("label_value", v)]
  = Some [ag; an; g; n; sg; sn; k; v].
Proof.
  intros Hc. unfold With. rewrite (application_labels c Hc). reflexivity.
Qed.

Lemma Warnf_written r `{!LawfulRef r} msg s :
  Warnf msg s = Some (tt, written r [] [Log.Warn msg] s).
Proof.
  unfold Warnf, written. simpl. by rewrite set_get.
Qed.

Lemma organizations_loop objs s :
  constructed (collector s) →
  forM_ (Organizations objs) (λ org,
    forM_ (map_to_list (Labels (Metadata org))) (λ kv,
      let '(key, value) := kv in
      WithSet organizationMetadataMetric_
        [("organization_id", GUID org);
         ("organization_name", Name org);
         ("label_key", key);
         ("label_value", value)] 1%float)) s
  = Some (tt, written organizationMetadataMetric_
                (Organizations objs ≫= orgChildren) [] s).
Proof.
  intros Hs.
  rewrite (forM__written organizationMetadataMetric_ _ _
             orgChildren (λ _, [])); [by rewrite bind_nil| |done].
  intros org s' _ Hs'.
  apply (label_round organizationMetadataMetric_ [GUID org; Name org] ""
           org (λ key value, _)); [|done].
  intros k v s'' Hs''. by apply With_organization.
Qed.

Lemma spaces_loop objs s :
  constructed (collector s) →
  forM_ (Spaces objs) (λ space,
    match relationshipGUID space "organization" with
    | None =>
        Warnf ("Space " +:+ GUID space +:+ " has no organization relationship")
    | Some orgGUID =>
        match OrganizationsMap objs !! orgGUID with
        | None =>
            Warnf ("Organization " +:+ orgGUID +:+ " not found for space "
                   +:+ GUID space)
        | Some org =>
            forM_ (map_to_list (Labels (Metadata space))) (λ kv,
              let '(key, value) := kv in
              WithSet spaceMetadataMetric_
                [("space_id", GUID space);
                 ("space_name", Name space);
                 ("organization_id", GUID org);
                 ("organization_name", Name org);
                 ("label_key", key);
                 ("label_value", value)] 1%float)
        end
    end) s
  = Some (tt, written spaceMetadataMetric_
                (Spaces objs ≫= spaceChildren objs)
                (Spaces objs ≫= orgWarning objs) s).
Proof.
  intros Hs.
  apply (forM__written spaceMetadataMetric_); [|done].
  intros space s' _ Hs'.
  unfold spaceChildren, resolveOrg, orgWarning.
  destruct (relationshipGUID space "organization") as [orgGUID|]; simpl;
    [|by apply Warnf_written, _].
  destruct (OrganizationsMap objs !! orgGUID) as [org|]; simpl;
    [|by apply Warnf_written, _].
  apply (label_round spaceMetadataMetric_
           [GUID space; Name space; GUID org; Name org] ""
           space (λ key value, _)); [|done].
  intros k v s'' Hs''. by apply With_space.
Qed.

Lemma application_round objs app s :
  constructed (collector s) →
  match relationshipGUID app "space" with
  | None =>
      Warnf ("Application " +:+ GUID app +:+ " has no space relationship")
  | Some spaceGUID =>
      match SpacesMap objs !! spaceGUID with
      | None =>
          Warnf ("Space " +:+ spaceGUID +:+ " not found for application "
                 +:+ GUID app)
      | Some space =>
          match relationshipGUID space "organization" with
          | None =>
              Warnf ("Space " +:+ GUID space
                     +:+ " has no organization relationship")
          | Some orgGUID =>
              match OrganizationsMap objs !! orgGUID with
              | None =>
                  Warnf ("Organization " +:+ orgGUID
                         +:+ " not found for space " +:+ GUID space)
              | Some org =>
                  forM_ (map_to_list (Labels (Metadata app))) (λ kv,
                    let '(key, value) := kv in
                    WithSet applicationMetadataMetric_
                      [("application_id", GUID app);
                       ("application_name", Name app);
                       ("organization_id", GUID org);
                       ("organization_name", Name org);
                       ("space_id", GUID space);
                       ("space_name", Name space);
                       ("label_key", key);
                       ("label_value", value)] 1%float);;
                  forM_ (map_to_list (Labels (Metadata org))) (λ kv,
                    let '(key, value) := kv in
                    WithSet applicationMetadataMetric_
                      [("application_id", GUID app);
                       ("application_name", Name app);
                       ("organization_id", GUID org);
                       ("organization_name", Name org);
                       ("space_id", GUID space);
                       ("space_name", Name space);
                       ("label_key", "org_" +:+ key);
                       ("label_value", value)] 1%float);;
                  forM_ (map_to_list (Labels (Metadata space))) (λ kv,
                    let '(key, value) := kv in
                    WithSet applicationMetadataMetric_
                      [("application_id", GUID app);
                       ("application_name", Name app);
                       ("organization_id", GUID org);
                       ("organization_name", Name org);
                       ("space_id", GUID space);
                       ("space_name", Name space);
                       ("label_key", "space_" +:+ key);
                       ("label_value", value)] 1%float)
              end
          end
      end
  end s
  = Some (tt, written applicationMetadataMetric_
                (appChildren objs app) (appWarning objs app) s).
Proof.
  intros Hs.
  unfold appChildren, resolveApp, resolveOrg, appWarning, orgWarning.
  destruct (relationshipGUID app "space") as [spaceGUID|]; simpl;
    [|by apply Warnf_written, _].
  destruct (SpacesMap objs !! spaceGUID) as [space|]; simpl;
    [|by apply Warnf_written, _].
  destruct (relationshipGUID space "organization") as [orgGUID|]; simpl;
    [|by apply Warnf_written, _].
  destruct (OrganizationsMap objs !! orgGUID) as [org|]; simpl;
    [|by apply Warnf_written, _].
  rewrite bind_run.
  rewrite (label_round applicationMetadataMetric_ (appIdent app space org) ""
             app (λ key value, _));
    [|intros k v s' Hs'; by apply With_application|done].
  rewrite bind_run.
  rewrite (label_round applicationMetadataMetric_ (appIdent app space org)
             "org_" org (λ key value, _));
    [|intros k v s' Hs'; by apply With_application
     |by apply (written_constructed _)].
  rewrite (label_round applicationMetadataMetric_ (appIdent app space org)
             "space_" space (λ key value, _));
    [|intros k v s' Hs'; by apply With_application
     |by do 2 apply (written_constructed _)].
  by rewrite !(written_written _).
Qed.

(** *** The pass and the entry point, in closed form *)

(** The pass returns [nil] and leaves the state [rendered]. *)
Lemma reportMetadataMetrics_run objs s :
  constructed (collector s) →
  reportMetadataMetrics objs s = Some (None, rendered objs s).
Proof.
  intros Hs. unfold reportMetadataMetrics.
  rewrite bind_run, organizations_loop by done.
  rewrite bind_run, spaces_loop by (by apply (written_constructed _)).
  rewrite bind_run.
  rewrite (forM__written applicationMetadataMetric_ _ _
             (appChildren objs) (appWarning objs));
    [|intros app s' _ Hs'; by apply application_round
     |by do 2 apply (written_constructed _)].
  unfold rendered, mbind, M_bind, send, mret, M_ret. simpl.
  by rewrite <- !app_assoc.
Qed.

Lemma health_run errorMetric took now s :
  (send metadataScrapeErrorsTotalMetric_ Counter_Collect;;
   modify metadataScrapesTotalMetric_ Inc;;
   send metadataScrapesTotalMetric_ Counter_Collect;;
   modify lastMetadataScrapeErrorMetric_ (Gauge_Set errorMetric);;
   send lastMetadataScrapeErrorMetric_ Gauge_Collect;;
   modify lastMetadataScrapeTimestampMetric_ (Gauge_Set (float64_of_Z now));;
   send lastMetadataScrapeTimestampMetric_ Gauge_Collect;;
   modify lastMetadataScrapeDurationSecondsMetric_ (Gauge_Set took);;
   send lastMetadataScrapeDurationSecondsMetric_ Gauge_Collect) s
  = Some (tt, health errorMetric took now s).
Proof.
  unfold mbind, M_bind, send, modify, health. simpl.
  by rewrite <- !app_assoc.
Qed.

Lemma Collect_run_error objs now s e :
  Error objs = Some e →
  Collect objs now s
  = Some (tt, health 1 (Took objs) now
                {| collector :=
                     rset metadataScrapeErrorsTotalMetric_
                       (Inc (metadataScrapeErrorsTotalMetric (collector s)))
                       (collector s);
                   ch := ch s; logs := logs s |}).
Proof.
  intros He. unfold Collect. rewrite He, bind_run. simpl.
  apply health_run.
Qed.

Lemma Collect_run_ok objs now s :
  Error objs = None →
  constructed (collector s) →
  Collect objs now s
  = Some (tt, health 0 (Took objs) now (rendered objs s)).
Proof.
  intros He Hs. unfold Collect. rewrite He.
  rewrite bind_run, bind_run, reportMetadataMetrics_run by done.
  apply health_run.
Qed.

(** *** The contents of a vector and what collecting it sends *)

Lemma lookup_setAll keys v k :
  gv_metrics (setAll keys v) !! k
  = if decide (k ∈ keys) then Some 1%float else gv_metrics v !! k.
Proof.
  revert v. induction keys as [|k0 keys IH]; intros v.
  - by rewrite decide_False by apply not_elem_of_nil.
  - change (setAll (k0 :: keys) v) with (setAll keys (Set_ k0 1%float v)).
    rewrite IH. simpl.
    destruct (decide (k ∈ keys)) as [Hin|Hout].
    + by rewrite decide_True by (by right).
    + destruct (decide (k0 = k)) as [->|Hne].
      * by rewrite lookup_insert_eq, decide_True by (by left).
      * rewrite lookup_insert_ne by done.
        rewrite decide_False; [done|].
        intros [->|?]%elem_of_cons; done.
Qed.

(** The order in which the children are set is immaterial. *)
Lemma setAll_Permutation keys keys' v :
  keys ≡ₚ keys' → setAll keys v = setAll keys' v.
Proof.
  intros Hperm.
  assert (∀ ks, setAll ks v
                = mkGaugeVec (gv_desc v) (gv_metrics (setAll ks v))) as Heta.
  { intros ks. rewrite <- (setAll_desc ks v). by destruct (setAll ks v). }
  rewrite (Heta keys), (Heta keys'). f_equal.
  apply map_eq. intros k. rewrite !lookup_setAll.
  destruct (decide (k ∈ keys)) as [Hin|Hout].
  - by rewrite decide_True by (by rewrite <- Hperm).
  - by rewrite decide_False by (by rewrite <- Hperm).
Qed.

Lemma elem_of_GaugeVec_Collect v m :
  m ∈ GaugeVec_Collect v ↔
  m_desc m = gv_desc v ∧ gv_metrics v !! m_labelValues m = Some (m_value m).
Proof.
  unfold GaugeVec_Collect. rewrite list_elem_of_fmap. split.
  - intros ([k x] & -> & Hkx%elem_of_map_to_list). by simpl.
  - intros [Hd Hl]. exists (m_labelValues m, m_value m). split.
    + destruct m. simpl in *. by subst.
    + by apply elem_of_map_to_list.
Qed.


(** A sample of [setAll keys v] was set by the pass or was already held. *)
Lemma elem_of_Collect_setAll keys v m :
  m ∈ GaugeVec_Collect (setAll keys v) ↔
  m_desc m = gv_desc v ∧
  (((m_labelValues m ∈ keys) ∧ m_value m = 1%float) ∨
   ((m_labelValues m ∉ keys) ∧ m ∈ GaugeVec_Collect v)).
Proof.
  rewrite !elem_of_GaugeVec_Collect, setAll_desc, lookup_setAll.
  destruct (decide (m_labelValues m ∈ keys)) as [Hin|Hout].
  - split.
    + intros [Hd [= Hv]]. split; [done|]. by left.
    + intros [Hd [[_ Hv]|[Hout _]]]; [|done]. split; [done|]. by f_equal.
  - split.
    + intros [Hd Hl]. split; [done|]. by right.
    + intros [Hd [[Hin _]|[_ [_ Hl]]]]; done.
Qed.

Lemma elem_of_labelChildren ident prefix e k :
  k ∈ labelChildren ident prefix e ↔
  ∃ key value, Labels (Metadata e) !! key = Some value ∧
               k = ident ++ [prefix +:+ key; value].
Proof.
  unfold labelChildren. rewrite list_elem_of_fmap. split.
  - intros ([key value] & -> & H%elem_of_map_to_list). by exists key, value.
  - intros (key & value & H & ->). exists (key, value).
    split; [done|]. by apply elem_of_map_to_list.
Qed.

Lemma filter_none {A} (P : A → Prop) `{!∀ x, Decision (P x)} (l : list A) :
  (∀ x, x ∈ l → ¬ P x) → filter P l = [].
Proof.
  induction l as [|x l IH]; intros Hl; [done|].
  rewrite filter_cons_False by (apply Hl; by left).
  apply IH. intros y Hy. apply Hl. by right.
Qed.

(** The three vectors of a constructed collector differ in descriptor,
    and differ from the descriptors of the health metrics. *)
Lemma constructed_distinct c :
  constructed c →
  gv_desc (organizationMetadataMetric c) ≠ gv_desc (spaceMetadataMetric c) ∧
  gv_desc (organizationMetadataMetric c)
    ≠ gv_desc (applicationMetadataMetric c) ∧
  gv_desc (spaceMetadataMetric c) ≠ gv_desc (applicationMetadataMetric c).
Proof.
  intros Hc.
  pose proof (organization_labels c Hc) as Ho.
  pose proof (space_labels c Hc) as Hs.
  pose proof (application_labels c Hc) as Ha.
  repeat split; intros E; rewrite E in *; congruence.
Qed.

Lemma constructed_health c d :
  constructed c →
  d ∈ [c_desc (metadataScrapesTotalMetric c);
       c_desc (metadataScrapeErrorsTotalMetric c);
       g_desc (lastMetadataScrapeErrorMetric c);
       g_desc (lastMetadataScrapeTimestampMetric c);
       g_desc (lastMetadataScrapeDurationSecondsMetric c)] →
  variableLabels d = [].
Proof.
  unfold constructed, descs. intros Hc Hd.
  injection Hc as _ _ _ H1 H2 H3 H4 H5.
  repeat (apply elem_of_cons in Hd as [->|Hd];
          [first [by rewrite H1|by rewrite H2|by rewrite H3
                 |by rewrite H4|by rewrite H5]|]).
  by apply elem_of_nil in Hd.
Qed.


(** *** Samples of one vector among what a pass sends *)








(** *** The samples of one label group *)

Lemma append_inj_r (p k k' : string) : p +:+ k = p +:+ k' → k = k'.
Proof. induction p as [|a p IH]; simpl; [done|]. intros [= H]. by apply IH. Qed.




(** *** The descriptors are kept *)

(** [Collect] leaves a constructed collector constructed. *)
Lemma Collect_constructed objs now s s' :
  constructed (collector s) →
  Collect objs now s = Some (tt, s') →
  constructed (collector s').
Proof.
  intros Hs. destruct (Error objs) as [e|] eqn:He.
  - rewrite (Collect_run_error objs now s e He). intros [= <-].
    unfold constructed, descs in *. simpl. exact Hs.
  - rewrite (Collect_run_ok objs now s He Hs). intros [= <-].
    unfold constructed, descs in *. simpl. by rewrite !setAll_desc.
Qed.

End CollectorFacts.

(* ===================================================================== *)
(** * Scrape-health bookkeeping *)
(* ===================================================================== *)

Module Health.
Import Prometheus Models Collectors Render CollectorFacts.

(** C2.  When the snapshot carries a top-level error, [Collect] does not
    attempt the detail-metric walk: the five samples it sends are those
    of the health metrics and none is a detail sample, the three
    metadata vectors and the logger are left as they were; the error
    flag gauge is set to 1, the scrape-error counter grows by one and the
    scrape counter grows by one. *)
Theorem top_level_error_skips_walk c objs now ch0 logs0 e :
  constructed c →
  Error objs = Some e →
  ∃ s' out,
    Collect objs now (mkState c ch0 logs0) = Some (tt, s') ∧
    ch s' = ch0 ++ out ∧
    length out = 5 ∧
    filter (detail c) out = [] ∧
    organizationMetadataMetric (collector s') = organizationMetadataMetric c ∧
    spaceMetadataMetric (collector s') = spaceMetadataMetric c ∧
    applicationMetadataMetric (collector s') = applicationMetadataMetric c ∧
    logs s' = logs0 ∧
    g_val (lastMetadataScrapeErrorMetric (collector s')) = 1%float ∧
    c_val (metadataScrapeErrorsTotalMetric (collector s'))
    = (c_val (metadataScrapeErrorsTotalMetric c) + 1)%N ∧
    c_val (metadataScrapesTotalMetric (collector s'))
    = (c_val (metadataScrapesTotalMetric c) + 1)%N.
Proof.
  intros Hc He. eexists _, _. split; [by eapply Collect_run_error|].
  simpl. split; [reflexivity|]. split; [reflexivity|].
  split; [|by repeat split].
  apply filter_none. intros m Hm Hdet.
  assert (variableLabels (m_desc m) = []) as Hnil.
  { apply (constructed_health c); [done|].
    repeat (apply elem_of_cons in Hm as [->|Hm]; simpl;
            [set_solver|]).
    by apply elem_of_nil in Hm. }
  pose proof (organization_labels c Hc).
  pose proof (space_labels c Hc).
  pose proof (application_labels c Hc).
  destruct Hdet as [E|[E|E]]; rewrite E in Hnil; congruence.
Qed.

Lemma top_level_error_skips_walk_witness :
  constructed Examples.c0 ∧
  Error Examples.failed = Some "unable to fetch spaces" ∧
  ∃ s' out,
    Collect Examples.failed 1700000000 (mkState Examples.c0 [] [])
    = Some (tt, s') ∧
    ch s' = [] ++ out ∧
    length out = 5 ∧
    filter (detail Examples.c0) out = [] ∧
    organizationMetadataMetric (collector s')
    = organizationMetadataMetric Examples.c0 ∧
    spaceMetadataMetric (collector s') = spaceMetadataMetric Examples.c0 ∧
    applicationMetadataMetric (collector s')
    = applicationMetadataMetric Examples.c0 ∧
    logs s' = [] ∧
    g_val (lastMetadataScrapeErrorMetric (collector s')) = 1%float ∧
    c_val (metadataScrapeErrorsTotalMetric (collector s'))
    = (c_val (metadataScrapeErrorsTotalMetric Examples.c0) + 1)%N ∧
    c_val (metadataScrapesTotalMetric (collector s'))
    = (c_val (metadataScrapesTotalMetric Examples.c0) + 1)%N.
Proof.
  split; [reflexivity|]. split; [reflexivity|].
  apply (top_level_error_skips_walk Examples.c0 Examples.failed 1700000000
           [] [] "unable to fetch spaces"); reflexivity.
Defined.



End Health.


(* ===================================================================== *)
(** * Label samples *)
(* ===================================================================== *)

Module LabelSamples.
Import Prometheus Models Collectors Render CollectorFacts.






End LabelSamples.


(* ===================================================================== *)
(** * Relationship gaps *)
(* ===================================================================== *)

Module Gaps.
Import Prometheus Models Collectors Render CollectorFacts.











End Gaps.


(* ===================================================================== *)
(** * Successive scrapes *)
(* ===================================================================== *)

Module Scrapes.
Import Prometheus Models Collectors Render CollectorFacts.








(** C9.  The end-to-end example: organization [o1] ("org1", label
    team = x), space [s1] ("space1", in [o1], no label), application [a1]
    ("app1", in [s1], label env = prod).  A pass of a new collector over
    this snapshot sends exactly three samples, each with value 1: the
    organization sample (o1, org1, team, x), the application sample
    (a1, app1, o1, org1, s1, space1, env, prod) and the application sample
    with the same identity and (org_team, x).  None is a space sample and
    none carries a key under [space_]; nothing is logged. *)
Theorem end_to_end_example ns env dep :
  ∃ s',
    reportMetadataMetrics Examples.snapshot1
      (start (NewMetadataCollector ns env dep))
    = Some (None, s') ∧
    ch s' ≡ₚ
      [mkMetric
         (gv_desc (organizationMetadataMetric
                     (NewMetadataCollector ns env dep)))
         ["o1"; "org1"; "team"; "x"] 1%float;
       mkMetric
         (gv_desc (applicationMetadataMetric
                     (NewMetadataCollector ns env dep)))
         ["a1"; "app1"; "o1"; "org1"; "s1"; "space1"; "env"; "prod"] 1%float;
       mkMetric
         (gv_desc (applicationMetadataMetric
                     (NewMetadataCollector ns env dep)))
         ["a1"; "app1"; "o1"; "org1"; "s1"; "space1"; "org_team"; "x"]
         1%float] ∧
    (∀ m, m ∈ ch s' →
          m_desc m
          ≠ gv_desc (spaceMetadataMetric (NewMetadataCollector ns env dep)) ∧
          ∀ k, label "label_key" m ≠ Some ("space_" +:+ k)) ∧
    logs s' = [].
Proof.
  exists (rendered Examples.snapshot1
            (start (NewMetadataCollector ns env dep))).
  split; [apply reportMetadataMetrics_run, NewMetadataCollector_constructed|].
  assert (ch (rendered Examples.snapshot1
                (start (NewMetadataCollector ns env dep)))
          = [mkMetric
               (gv_desc (organizationMetadataMetric
                           (NewMetadataCollector ns env dep)))
               ["o1"; "org1"; "team"; "x"] 1%float;
             mkMetric
               (gv_desc (applicationMetadataMetric
                           (NewMetadataCollector ns env dep)))
               ["a1"; "app1"; "o1"; "org1"; "s1"; "space1"; "org_team"; "x"]
               1%float;
             mkMetric
               (gv_desc (applicationMetadataMetric
                           (NewMetadataCollector ns env dep)))
               ["a1"; "app1"; "o1"; "org1"; "s1"; "space1"; "env"; "prod"]
               1%float]) as ->
    by (vm_compute; reflexivity).
  split; [apply perm_skip, perm_swap|]. split; [|reflexivity].
  intros m Hm.
  destruct (constructed_distinct _ (NewMetadataCollector_constructed ns env dep))
    as (Hos & Hoa & Hsa).
  repeat (apply elem_of_cons in Hm as [->|Hm]);
    [..|by apply elem_of_nil in Hm];
    (split; [first [exact Hos|exact (λ E, Hsa (eq_sym E))]|]);
    intros k; cbv; discriminate.
Qed.

End Scrapes.


(* ===================================================================== *)
(** * Properties of the fetcher *)
(* ===================================================================== *)

Module FetcherFacts.
Import Models Fetcher.

Lemma Push_elem x n h w : x ∈ list_ w → x ∈ list_ (Push n h w).
Proof. intros H. simpl. apply elem_of_app. by left. Qed.

Lemma Push_here n h w : mkWork n h ∈ list_ (Push n h w).
Proof. simpl. apply elem_of_app. right. by left. Qed.

Lemma PushIf_elem x n h any w : x ∈ list_ w → x ∈ list_ (PushIf n h any w).
Proof.
  intros H. unfold PushIf. destruct (Filters.Any (filter w) any); [|done].
  by apply Push_elem.
Qed.

Lemma PushIf_here n h any w :
  Filters.Any (filter w) any = true → mkWork n h ∈ list_ (PushIf n h any w).
Proof. intros H. unfold PushIf. rewrite H. apply Push_here. Qed.

Lemma PushIf_filter n h any w : filter (PushIf n h any w) = filter w.
Proof. unfold PushIf. by destruct (Filters.Any (filter w) any). Qed.

(** C7.  When the applications category is enabled, the plan [workInit]
    builds contains the organizations task and the spaces task, whatever
    the organizations and spaces flags are; when the metadata category is
    enabled, it contains the organizations, spaces and applications tasks,
    whatever the other flags are. *)
Theorem dependent_categories_are_forced c :
  (Filters.Enabled (filter (worker c)) Filters.Applications = true →
   mkWork "organizations" fetchOrgs ∈ list_ (worker (workInit c)) ∧
   mkWork "spaces" fetchSpaces ∈ list_ (worker (workInit c))) ∧
  (Filters.Enabled (filter (worker c)) Filters.Metadata = true →
   mkWork "organizations" fetchOrgs ∈ list_ (worker (workInit c)) ∧
   mkWork "spaces" fetchSpaces ∈ list_ (worker (workInit c)) ∧
   mkWork "applications" fetchApplications ∈ list_ (worker (workInit c))).
Proof.
  unfold workInit. cbv zeta.
  change (worker {| config := config c; worker := ?w |}) with w.
  change (filter (Push "info" fetchInfo (Reset_ (worker c))))
    with (filter (worker c)).
  split.
  - intros Happ. split; do 19 apply PushIf_elem.
    + destruct (Filters.Enabled (filter (worker c)) Filters.Metadata).
      * do 2 apply Push_elem. apply Push_here.
      * do 2 apply PushIf_elem. apply PushIf_here. simpl. by rewrite Happ.
    + destruct (Filters.Enabled (filter (worker c)) Filters.Metadata).
      * apply Push_elem, Push_here.
      * apply PushIf_elem, PushIf_here. rewrite PushIf_filter. simpl.
        by rewrite Happ.
  - intros Hmeta. rewrite Hmeta. repeat split; do 19 apply PushIf_elem.
    + do 2 apply Push_elem. apply Push_here.
    + apply Push_elem, Push_here.
    + apply Push_here.
Qed.

Lemma dependent_categories_are_forced_witness :
  Filters.Enabled (filter (worker Examples.fetcherA)) Filters.Applications
  = true ∧
  Filters.Enabled (filter (worker Examples.fetcherA)) Filters.Organizations
  = false ∧
  Filters.Enabled (filter (worker Examples.fetcherA)) Filters.Spaces
  = false ∧
  mkWork "organizations" fetchOrgs
    ∈ list_ (worker (workInit Examples.fetcherA)) ∧
  mkWork "spaces" fetchSpaces ∈ list_ (worker (workInit Examples.fetcherA)) ∧
  Filters.Enabled (filter (worker Examples.fetcherM)) Filters.Metadata
  = true ∧
  mkWork "organizations" fetchOrgs
    ∈ list_ (worker (workInit Examples.fetcherM)) ∧
  mkWork "spaces" fetchSpaces ∈ list_ (worker (workInit Examples.fetcherM)) ∧
  mkWork "applications" fetchApplications
    ∈ list_ (worker (workInit Examples.fetcherM)).
Proof.
  repeat (split; [reflexivity|]).
  split; [exact (proj1 (proj1 (dependent_categories_are_forced
                                 Examples.fetcherA) eq_refl))|].
  split; [exact (proj2 (proj1 (dependent_categories_are_forced
                                 Examples.fetcherA) eq_refl))|].
  split; [reflexivity|].
  exact (proj2 (dependent_categories_are_forced Examples.fetcherM) eq_refl).
Defined.

(** C3.  When the session cannot be established, [fetch] returns the
    fresh snapshot with the session error as its top-level error and no
    category data; the fetcher, and with it the plan of its worker, is as
    it was: the plan is not built.  The worker's [Do] is not called: the
    result is the same whatever [Do] would do. *)
Theorem session_failure_short_circuits {SessionExt : Type}
    (NewSessionExt : CFConfig → SessionExt + error)
    (Do : Worker → SessionExt → CFObjects → CFObjects * option error)
    c logs err :
  NewSessionExt (config c) = inr err →
  ∃ result c' logs',
    fetch NewSessionExt Do c logs = (result, c', logs') ∧
    Error result = Some err ∧
    Organizations result = [] ∧ Spaces result = [] ∧
    Applications result = [] ∧
    OrganizationsMap result = ∅ ∧ SpacesMap result = ∅ ∧
    result = setError (Some err) NewCFObjects ∧
    c' = c ∧
    (∀ Do', fetch NewSessionExt Do' c logs = (result, c', logs')).
Proof.
  intros Hs. eexists _, _, _. unfold fetch. rewrite Hs.
  split; [reflexivity|]. by repeat split.
Qed.

Lemma session_failure_short_circuits_witness :
  Examples.noSession (config Examples.fetcherA)
  = inr "unable to authenticate" ∧
  ∃ result c' logs',
    fetch Examples.noSession Examples.fillingDo Examples.fetcherA []
    = (result, c', logs') ∧
    Error result = Some "unable to authenticate" ∧
    Organizations result = [] ∧ Spaces result = [] ∧
    Applications result = [] ∧
    OrganizationsMap result = ∅ ∧ SpacesMap result = ∅ ∧
    result = setError (Some "unable to authenticate") NewCFObjects ∧
    c' = Examples.fetcherA ∧
    (∀ Do', fetch Examples.noSession Do' Examples.fetcherA []
            = (result, c', logs')).
Proof.
  split; [reflexivity|].
  apply (session_failure_short_circuits Examples.noSession Examples.fillingDo
           Examples.fetcherA [] "unable to authenticate").
  reflexivity.
Defined.

End FetcherFacts.


(* ===================================================================== *)
(** * A collector over its lifetime *)
(* ===================================================================== *)

Module RegistryFacts.
Import Prometheus Models Collectors Render CollectorFacts Registry.

Lemma held_after_pass objs e now s :
  held (collector (health e (Took objs) now (rendered objs s)))
  = GaugeVec_Collect
      (setAll (Organizations objs ≫= orgChildren)
         (organizationMetadataMetric (collector s))) ++
    GaugeVec_Collect
      (setAll (Spaces objs ≫= spaceChildren objs)
         (spaceMetadataMetric (collector s))) ++
    GaugeVec_Collect
      (setAll (Applications objs ≫= appChildren objs)
         (applicationMetadataMetric (collector s))).
Proof. reflexivity. Qed.

Lemma elem_of_passSamples c objs m :
  m ∈ passSamples c objs ↔
  (m_desc m = gv_desc (organizationMetadataMetric c) ∧
   (m_labelValues m ∈ Organizations objs ≫= orgChildren) ∧
   m_value m = 1%float) ∨
  (m_desc m = gv_desc (spaceMetadataMetric c) ∧
   (m_labelValues m ∈ Spaces objs ≫= spaceChildren objs) ∧
   m_value m = 1%float) ∨
  (m_desc m = gv_desc (applicationMetadataMetric c) ∧
   (m_labelValues m ∈ Applications objs ≫= appChildren objs) ∧
   m_value m = 1%float).
Proof.
  unfold passSamples. rewrite !elem_of_app.
  assert (∀ d (keys : list (list string)),
            m ∈ (λ lvs, mkMetric d lvs 1%float) <$> keys ↔
            m_desc m = d ∧ (m_labelValues m ∈ keys) ∧ m_value m = 1%float)
    as Hset.
  { intros d keys. rewrite list_elem_of_fmap. split.
    - by intros (lvs & -> & Hin).
    - intros (Hd & Hin & Hv). exists (m_labelValues m). split; [|done].
      destruct m. simpl in *. by subst. }
  by rewrite !Hset.
Qed.

(** With every held sample at value 1, a pass adds its samples to those
    held and takes none away. *)
Lemma elem_of_held_after_pass objs e now s m :
  (∀ m', m' ∈ held (collector s) → m_value m' = 1%float) →
  m ∈ held (collector (health e (Took objs) now (rendered objs s))) ↔
  m ∈ held (collector s) ∨ m ∈ passSamples (collector s) objs.
Proof.
  intros Hones. rewrite held_after_pass, elem_of_passSamples.
  unfold held in *. rewrite !elem_of_app, !elem_of_Collect_setAll.
  setoid_rewrite elem_of_app in Hones. setoid_rewrite elem_of_app in Hones.
  assert (∀ (keys : list (list string)) v,
            (m ∈ GaugeVec_Collect v → m_value m = 1%float) →
            (m_desc m = gv_desc v ∧
             (((m_labelValues m ∈ keys) ∧ m_value m = 1%float) ∨
              ((m_labelValues m ∉ keys) ∧ m ∈ GaugeVec_Collect v))) ↔
            m ∈ GaugeVec_Collect v ∨
            (m_desc m = gv_desc v ∧ (m_labelValues m ∈ keys) ∧
             m_value m = 1%float)) as Hvec.
  { intros keys v Hone. split.
    - intros [Hd [[Hin Hv]|[Hout Hold]]]; [by right|by left].
    - intros [Hold|(Hd & Hin & Hv)]; [|by split; [|left]].
      pose proof Hold as [Hd _]%elem_of_GaugeVec_Collect.
      split; [done|].
      destruct (decide (m_labelValues m ∈ keys)); [left|right]; auto. }
  rewrite !Hvec by (intros ?; apply Hones; tauto). tauto.
Qed.

Lemma length_labelChildren ident prefix e k :
  k ∈ labelChildren ident prefix e → length k = length ident + 2.
Proof.
  intros (key & value & _ & ->)%elem_of_labelChildren.
  rewrite length_app. reflexivity.
Qed.

Lemma length_orgChildren objs k :
  k ∈ Organizations objs ≫= orgChildren → length k = 4.
Proof.
  intros (o & Hk & _)%list_elem_of_bind.
  by apply length_labelChildren in Hk.
Qed.

Lemma length_spaceChildren objs k :
  k ∈ Spaces objs ≫= spaceChildren objs → length k = 6.
Proof.
  intros (sp & Hk & _)%list_elem_of_bind. unfold spaceChildren in Hk.
  destruct (resolveOrg objs sp); [|by apply elem_of_nil in Hk].
  by apply length_labelChildren in Hk.
Qed.

Lemma length_appChildren objs k :
  k ∈ Applications objs ≫= appChildren objs → length k = 8.
Proof.
  intros (a & Hk & _)%list_elem_of_bind. unfold appChildren in Hk.
  destruct (resolveApp objs a) as [[space org]|];
    [|by apply elem_of_nil in Hk].
  rewrite !elem_of_app in Hk.
  destruct Hk as [Hk|[Hk|Hk]]; by apply length_labelChildren in Hk.
Qed.

(** The samples a pass sets are well formed. *)
Lemma passSamples_wellFormed c objs m :
  constructed c →
  m ∈ passSamples c objs →
  m_value m = 1%float ∧
  length (m_labelValues m) = length (variableLabels (m_desc m)).
Proof.
  intros Hc. rewrite elem_of_passSamples.
  intros [(Hd & Hin & Hv)|[(Hd & Hin & Hv)|(Hd & Hin & Hv)]];
    (split; [done|]); rewrite Hd.
  - rewrite (organization_labels c Hc). by apply length_orgChildren in Hin.
  - rewrite (space_labels c Hc). by apply length_spaceChildren in Hin.
  - rewrite (application_labels c Hc). by apply length_appChildren in Hin.
Qed.

Lemma passSamples_descs c c' objs :
  gv_desc (organizationMetadataMetric c')
  = gv_desc (organizationMetadataMetric c) →
  gv_desc (spaceMetadataMetric c') = gv_desc (spaceMetadataMetric c) →
  gv_desc (applicationMetadataMetric c')
  = gv_desc (applicationMetadataMetric c) →
  passSamples c' objs = passSamples c objs.
Proof. unfold passSamples. by intros -> -> ->. Qed.

Lemma New_wellFormed ns env dep : wellFormed (NewMetadataCollector ns env dep).
Proof.
  split; [reflexivity|]. intros m Hm. unfold held in Hm. simpl in Hm.
  unfold GaugeVec_Collect in Hm. simpl in Hm.
  rewrite map_to_list_empty in Hm. by apply elem_of_nil in Hm.
Qed.

(** One invocation of [Collect] on a well-formed collector. *)
Lemma Collect_step objs now s :
  wellFormed (collector s) →
  ∃ s',
    Collect objs now s = Some (tt, s') ∧
    wellFormed (collector s') ∧
    Describe (collector s') = Describe (collector s) ∧
    c_val (metadataScrapesTotalMetric (collector s'))
    = (c_val (metadataScrapesTotalMetric (collector s)) + 1)%N ∧
    c_val (metadataScrapeErrorsTotalMetric (collector s'))
    = (c_val (metadataScrapeErrorsTotalMetric (collector s))
       + match Error objs with Some _ => 1 | None => 0 end)%N ∧
    g_val (lastMetadataScrapeErrorMetric (collector s'))
    = match Error objs with Some _ => 1%float | None => 0%float end ∧
    (∀ m, m ∈ held (collector s') ↔
          m ∈ held (collector s) ∨
          (Error objs = None ∧ m ∈ passSamples (collector s) objs)).
Proof.
  intros [Hc Hwf]. destruct (Error objs) as [e|] eqn:He.
  - eexists. split; [by eapply Collect_run_error|]. simpl.
    split; [split; [exact Hc|exact Hwf]|].
    split; [done|]. split; [done|]. split; [done|]. split; [done|].
    intros m.
    change (held (mkMetadataCollector _ _ _ _ _ _ _ _ _ _ _))
      with (held (collector s)).
    split; [by left|]. by intros [?|[? _]].
  - eexists. split; [by apply Collect_run_ok|].
    assert (∀ m, m ∈ held (collector
                             (health 0 (Took objs) now (rendered objs s))) ↔
                 m ∈ held (collector s) ∨
                 (@None error = None
                  ∧ m ∈ passSamples (collector s) objs)) as Hheld.
    { intros m. rewrite elem_of_held_after_pass by (intros ?; apply Hwf).
      tauto. }
    split; [split|].
    + unfold constructed, descs in *. simpl. by rewrite !setAll_desc.
    + intros m [Hold|[_ Hnew]]%Hheld; [by apply Hwf|].
      by apply (passSamples_wellFormed (collector s) objs).
    + split.
      { unfold Describe, GaugeVec_Describe. simpl.
        by rewrite !setAll_desc. }
      split; [simpl; done|]. split; [simpl; lia|]. split; [done|].
      exact Hheld.
Qed.

Lemma passSamples_Describe c c' objs :
  Describe c' = Describe c → passSamples c' objs = passSamples c objs.
Proof.
  unfold Describe, GaugeVec_Describe. simpl. intros [= Ho Hs Ha _ _ _ _ _].
  by apply passSamples_descs.
Qed.

Lemma scrapes_cons on l s :
  scrapes (on :: l) s
  = match Collect on.1 on.2 s with
    | Some (_, s') => scrapes l s'
    | None => None
    end.
Proof. reflexivity. Qed.

(** Any number of invocations on a well-formed collector. *)
Lemma scrapes_run l s :
  wellFormed (collector s) →
  ∃ s',
    scrapes l s = Some (tt, s') ∧
    wellFormed (collector s') ∧
    Describe (collector s') = Describe (collector s) ∧
    c_val (metadataScrapesTotalMetric (collector s'))
    = (c_val (metadataScrapesTotalMetric (collector s))
       + N.of_nat (length l))%N ∧
    c_val (metadataScrapeErrorsTotalMetric (collector s'))
    = (c_val (metadataScrapeErrorsTotalMetric (collector s))
       + N.of_nat (length (failedScrapes l)))%N ∧
    (∀ on, last l = Some on →
           g_val (lastMetadataScrapeErrorMetric (collector s'))
           = match Error on.1 with Some _ => 1%float | None => 0%float end) ∧
    (∀ m, m ∈ held (collector s') ↔
          m ∈ held (collector s) ∨
          ∃ on, on ∈ l ∧ Error on.1 = None ∧
                m ∈ passSamples (collector s) on.1).
Proof.
  revert s. induction l as [|on l IH]; intros s Hwf.
  - exists s. split; [done|]. split; [done|]. split; [done|].
    split; [simpl; lia|]. split; [simpl; lia|]. split; [done|].
    intros m. split; [by left|].
    by intros [?|(on & []%elem_of_nil & _)].
  - destruct (Collect_step on.1 on.2 s Hwf)
      as (s1 & Hrun & Hwf1 & Hd1 & Hn1 & He1 & Hf1 & Hh1).
    destruct (IH s1 Hwf1) as (s' & Hrun' & Hwf' & Hd' & Hn' & He' & Hf' & Hh').
    exists s'. rewrite scrapes_cons, Hrun.
    split; [done|]. split; [done|]. split; [congruence|].
    split; [rewrite Hn', Hn1; simpl; lia|]. split; [|split].
    + rewrite He', He1. unfold failedScrapes. rewrite filter_cons.
      destruct (Error on.1) as [e|].
      * rewrite decide_True by done. simpl. lia.
      * rewrite decide_False by (by intros []). lia.
    + intros on'. destruct l as [|on2 l].
      * intros [= <-]. injection Hrun' as <-. exact Hf1.
      * rewrite last_cons_cons. apply Hf'.
    + intros m. rewrite Hh', Hh1. split.
      * intros [[?|[Hok Hm]]|(on' & Hin & Hok & Hm)]; [by left|..].
        -- right. exists on. split; [by left|]. done.
        -- right. exists on'. split; [by right|]. split; [done|].
           by rewrite <- (passSamples_Describe _ _ _ Hd1).
      * intros [?|(on' & [->|Hin]%elem_of_cons & Hok & Hm)]; [by left; left|..].
        -- left. right. done.
        -- right. exists on'. split; [done|]. split; [done|].
           by rewrite (passSamples_Describe _ _ _ Hd1).
Qed.





(** A sample without label values, of a descriptor of a health metric,
    is no detail sample. *)
Lemma health_not_detail c m :
  constructed c →
  m_desc m ∈ [c_desc (metadataScrapesTotalMetric c);
              c_desc (metadataScrapeErrorsTotalMetric c);
              g_desc (lastMetadataScrapeErrorMetric c);
              g_desc (lastMetadataScrapeTimestampMetric c);
              g_desc (lastMetadataScrapeDurationSecondsMetric c)] →
  ¬ detail c m.
Proof.
  intros Hc Hm Hdet.
  pose proof (constructed_health c _ Hc Hm) as Hnil.
  pose proof (organization_labels c Hc).
  pose proof (space_labels c Hc).
  pose proof (application_labels c Hc).
  destruct Hdet as [E|[E|E]]; rewrite E in Hnil; congruence.
Qed.






End RegistryFacts.


(* ===================================================================== *)
(** * Space samples, warnings, metric names *)
(* ===================================================================== *)

Module PassFacts.
Import Prometheus Models Collectors Render CollectorFacts Registry.








(** X7.  The eight metrics of a new collector have pairwise distinct
    fully-qualified names, whatever the namespace is, the empty one
    included. *)
Theorem metric_names_are_distinct ns env dep :
  NoDup (fqName <$> Describe (NewMetadataCollector ns env dep)).
Proof.
  change (fqName <$> Describe (NewMetadataCollector ns env dep))
    with ((λ name, (if String.eqb ns "" then "" else ns +:+ "_") +:+ name)
            <$> ["organization_metadata"; "space_metadata";
                 "application_metadata"; "metadata_scrapes_total";
                 "metadata_scrape_errors_total";
                 "last_metadata_scrape_error";
                 "last_metadata_scrape_timestamp";
                 "last_metadata_scrape_duration_seconds"]).
  apply NoDup_fmap_2.
  - intros a b. apply append_inj_r.
  - apply (bool_decide_unpack _). vm_compute. exact I.
Qed.

End PassFacts.


(* ===================================================================== *)
(** * The plan of the fetcher *)
(* ===================================================================== *)

Module PlanFacts.
Import Fetcher Plan FetcherFacts.

Lemma PushIf_list n h any w :
  list_ (PushIf n h any w)
  = list_ w ++ optional (Filters.Any (filter w) any) (mkWork n h).
Proof.
  unfold PushIf. destruct (Filters.Any (filter w) any); simpl; [done|].
  by rewrite app_nil_r.
Qed.





(** The plan [workInit] leaves in the worker depends on the filter alone. *)
Lemma workInit_list c : list_ (worker (workInit c)) = plan (filter (worker c)).
Proof.
  unfold workInit, plan. cbv zeta. cbn [worker].
  repeat (rewrite PushIf_list; rewrite !PushIf_filter).
  change (filter (Push "info" fetchInfo (Reset_ (worker c))))
    with (filter (worker c)).
  destruct (Filters.Enabled (filter (worker c)) Filters.Metadata).
  - repeat (rewrite PushIf_list; rewrite ?PushIf_filter).
    cbn [filter Push list_ Reset_]. by rewrite <- !app_assoc.
  - repeat (rewrite PushIf_list; rewrite ?PushIf_filter).
    cbn [filter Push list_ Reset_]. by rewrite <- !app_assoc.
Qed.


Lemma elem_of_optional b (w x : Work) :
  x ∈ optional b w ↔ b = true ∧ x = w.
Proof.
  destruct b; simpl.
  - rewrite list_elem_of_singleton. by split; [|intros [_ ?]].
  - split; [by intros ?%elem_of_nil|by intros [? _]].
Qed.

Lemma optional_sublist b w : optional b w `sublist_of` [w].
Proof. destruct b; [done|apply sublist_nil_l]. Qed.

Lemma Any_mono f g any :
  (∀ c, Filters.Enabled f c = true → Filters.Enabled g c = true) →
  Filters.Any f any = true → Filters.Any g any = true.
Proof.
  intros H. unfold Filters.Any. rewrite !existsb_exists.
  intros (c & Hin & Hc). exists c. auto.
Qed.

Lemma optional_mono f g any w :
  (∀ c, Filters.Enabled f c = true → Filters.Enabled g c = true) →
  optional (Filters.Any f any) w `sublist_of` optional (Filters.Any g any) w.
Proof.
  intros H. destruct (Filters.Any f any) eqn:Hf.
  - by rewrite (Any_mono f g any H Hf).
  - apply sublist_nil_l.
Qed.

Lemma plan_mono f g :
  (∀ c, Filters.Enabled f c = true → Filters.Enabled g c = true) →
  plan f `sublist_of` plan g.
Proof.
  intros H. unfold plan. apply sublist_app; [done|].
  apply sublist_app.
  - destruct (Filters.Enabled f Filters.Metadata) eqn:Hf.
    + by rewrite (H _ Hf).
    + destruct (Filters.Enabled g Filters.Metadata).
      * apply (sublist_app _ [_]); [apply optional_sublist|].
        apply (sublist_app _ [_]); apply optional_sublist.
      * repeat apply sublist_app; by apply optional_mono.
  - repeat apply sublist_app; by apply optional_mono.
Qed.

Lemma plan_everything_NoDup : NoDup (name <$> plan everything).
Proof. apply (bool_decide_unpack _). vm_compute. exact I. Qed.

(** X8.  Enabling more categories never removes a task from the plan nor
    reorders it: the plan under a filter is a subsequence of the plan
    under any filter that enables at least the same categories.  No task
    name is registered twice. *)
Theorem plan_grows_with_the_filter c d :
  (∀ k, Filters.Enabled (filter (worker c)) k = true →
        Filters.Enabled (filter (worker d)) k = true) →
  list_ (worker (workInit c)) `sublist_of` list_ (worker (workInit d)) ∧
  NoDup (name <$> list_ (worker (workInit c))).
Proof.
  intros H. rewrite !workInit_list. split.
  - by apply plan_mono.
  - refine (sublist_NoDup _ _ plan_everything_NoDup _).
    apply fmap_sublist, plan_mono. done.
Qed.

Lemma plan_grows_with_the_filter_witness :
  list_ (worker (workInit Examples.fetcherA))
    `sublist_of` list_ (worker (workInit fetcherAll)) ∧
  NoDup (name <$> list_ (worker (workInit Examples.fetcherA))).
Proof.
  apply (plan_grows_with_the_filter Examples.fetcherA fetcherAll).
  intros k _. reflexivity.
Defined.

Lemma Any_true f any :
  Filters.Any f any = true ↔ ∃ k, k ∈ any ∧ Filters.Enabled f k = true.
Proof.
  unfold Filters.Any. rewrite existsb_exists. split.
  - intros (k & Hin & Hk). exists k. by rewrite list_elem_of_In.
  - intros (k & Hin & Hk). exists k. by rewrite <- list_elem_of_In.
Qed.

Lemma elem_of_optional_eq b (w : Work) : w ∈ optional b w ↔ b = true.
Proof. rewrite elem_of_optional. by split; [intros [? _]|]. Qed.

Lemma elem_of_optional_ne b (w x : Work) :
  handler x ≠ handler w → x ∈ optional b w ↔ False.
Proof.
  intros Hne. rewrite elem_of_optional.
  split; [intros [_ ->]; by destruct Hne|done].
Qed.

Ltac plan_membership :=
  rewrite ?elem_of_app, ?elem_of_cons, ?elem_of_nil;
  repeat match goal with
         | |- context [?x ∈ optional ?b ?w] =>
             first [ unify x w; rewrite (elem_of_optional_eq b w)
                   | rewrite (elem_of_optional_ne b w x)
                       by (cbn [handler]; discriminate) ]
         end;
  unfold Filters.Any; cbn [existsb];
  rewrite ?orb_false_r, ?orb_true_iff;
  intuition (try discriminate; try congruence).

(** X9.  Exactly when the three tasks the metadata metrics depend on, and
    the process task, are in the plan: organizations under Metadata,
    Applications or Organizations; spaces under Metadata, Applications or
    Spaces; applications under Metadata or Applications; process under
    Applications alone, so that Metadata brings the applications without
    their processes. *)
Theorem dependent_tasks_exactly c :
  (mkWork "organizations" fetchOrgs ∈ list_ (worker (workInit c)) ↔
     Filters.Enabled (filter (worker c)) Filters.Metadata = true ∨
     Filters.Enabled (filter (worker c)) Filters.Applications = true ∨
     Filters.Enabled (filter (worker c)) Filters.Organizations = true) ∧
  (mkWork "spaces" fetchSpaces ∈ list_ (worker (workInit c)) ↔
     Filters.Enabled (filter (worker c)) Filters.Metadata = true ∨
     Filters.Enabled (filter (worker c)) Filters.Applications = true ∨
     Filters.Enabled (filter (worker c)) Filters.Spaces = true) ∧
  (mkWork "applications" fetchApplications ∈ list_ (worker (workInit c)) ↔
     Filters.Enabled (filter (worker c)) Filters.Metadata = true ∨
     Filters.Enabled (filter (worker c)) Filters.Applications = true) ∧
  (mkWork "process" fetchProcesses ∈ list_ (worker (workInit c)) ↔
     Filters.Enabled (filter (worker c)) Filters.Applications = true).
Proof.
  rewrite workInit_list. unfold plan.
  destruct (Filters.Enabled (filter (worker c)) Filters.Metadata) eqn:Hm;
    split_and!; plan_membership.
Qed.


End PlanFacts.


(* ===================================================================== *)
(** * From the fetcher to the collector *)
(* ===================================================================== *)

Module SnapshotFacts.
Import Models Prometheus Collectors Fetcher Render Registry Snapshot.
Import CollectorFacts RegistryFacts.

Section Pipeline.
Context {SessionExt : Type}.
Variable NewSessionExt : CFConfig → SessionExt + error.
Variable Do : Worker → SessionExt → CFObjects → CFObjects * option error.
Variable Sprintf0f : float → string.

Lemma GetObjects_fail f took logs0 err :
  NewSessionExt (config f) = inr err →
  GetObjects NewSessionExt Do Sprintf0f f took logs0
  = (setTook took (setError (Some err) NewCFObjects), f,
     logs0 ++
     [Infof "collecting objects from cloud foundry API";
      Log.mkEntry Log.ErrorLevel "unable to initialize cloud foundry clients"
        (Some err);
      Infof ("collecting objects from cloud foundry API (done, "
             +:+ Sprintf0f took +:+ " sec)")]).
Proof.
  intros E. unfold GetObjects, fetch. rewrite E.
  by rewrite <- !app_assoc.
Qed.

Lemma GetObjects_ok f took logs0 session data err :
  NewSessionExt (config f) = inl session →
  Do (worker (workInit f)) session NewCFObjects = (data, err) →
  GetObjects NewSessionExt Do Sprintf0f f took logs0
  = (setTook took (setError err data), workInit f,
     logs0 ++
     [Infof "collecting objects from cloud foundry API";
      Infof ("collecting objects from cloud foundry API (done, "
             +:+ Sprintf0f took +:+ " sec)")]).
Proof.
  intros E ED. unfold GetObjects, fetch. rewrite E, ED.
  by rewrite <- !app_assoc.
Qed.

End Pipeline.


Lemma collector_health_rendered objs e now c ch0 logs0 :
  collector (health e (Took objs) now (rendered objs (mkState c ch0 logs0)))
  = collector (health e (Took objs) now (rendered objs (start c))).
Proof. reflexivity. Qed.

(** X12.  When the session cannot be opened, or the worker returns an
    error after some of its tasks have filled the snapshot, the scrape
    sends the five health samples and no detail sample, leaves the three
    metadata vectors as they were, raises the flag, counts the error and
    logs no warning: a partly fetched snapshot is never rendered. *)
Theorem failed_fetch_reports_health_only {SessionExt : Type}
    (NewSessionExt : CFConfig → SessionExt + error)
    (Do : Worker → SessionExt → CFObjects → CFObjects * option error)
    (Sprintf0f : float → string) f took now c ch0 logs0 :
  constructed c →
  (∀ session,
     NewSessionExt (config f) = inl session →
     is_Some (Do (worker (workInit f)) session NewCFObjects).2) →
  ∃ f' s' out,
    scrape NewSessionExt Do Sprintf0f f took now (mkState c ch0 logs0)
    = Some (f', s') ∧
    ch s' = ch0 ++ out ∧
    length out = 5 ∧
    base.filter (detail c) out = [] ∧
    held (collector s') = held c ∧
    g_val (lastMetadataScrapeErrorMetric (collector s')) = 1%float ∧
    g_val (lastMetadataScrapeDurationSecondsMetric (collector s')) = took ∧
    c_val (metadataScrapeErrorsTotalMetric (collector s'))
    = (c_val (metadataScrapeErrorsTotalMetric c) + 1)%N ∧
    Forall (λ e, Log.level e ≠ Log.WarnLevel)
      (drop (length logs0) (logs s')).
Proof.
  intros Hc Hfail.
  assert (∃ data f' mid e,
            GetObjects NewSessionExt Do Sprintf0f f took logs0
            = (data, f', logs0 ++ mid) ∧
            Error data = Some e ∧ Took data = took ∧
            Forall (λ e, Log.level e ≠ Log.WarnLevel) mid)
    as (data & f' & mid & e & EG & Ed & HT & Hmid).
  { destruct (NewSessionExt (config f)) as [session|err] eqn:E.
    - destruct (Do (worker (workInit f)) session NewCFObjects)
        as [data oe] eqn:ED.
      destruct (Hfail session eq_refl) as [e He].
      rewrite ED in He. simpl in He. subst oe.
      eexists _, _, _, e.
      split; [exact (GetObjects_ok _ _ _ _ _ _ _ _ _ E ED)|].
      split; [reflexivity|]. split; [reflexivity|].
      by repeat constructor.
    - eexists _, _, _, err.
      split; [exact (GetObjects_fail _ Do _ _ _ _ _ E)|].
      split; [reflexivity|]. split; [reflexivity|].
      by repeat constructor. }
  unfold scrape. cbn [collector ch logs]. rewrite EG.
  rewrite (Collect_run_error data now _ e Ed).
  eexists _, _, _. split; [reflexivity|].
  cbn [health collector ch logs].
  split; [reflexivity|]. split; [reflexivity|].
  split.
  { apply filter_none. intros m Hm. apply health_not_detail; [done|].
    repeat (apply elem_of_cons in Hm as [->|Hm];
            [cbn; repeat first [apply list_elem_of_here
                               |apply list_elem_of_further]|]).
    apply elem_of_nil in Hm. destruct Hm. }
  split; [reflexivity|]. split; [reflexivity|].
  split; [exact HT|]. split; [reflexivity|].
  rewrite drop_app_length. exact Hmid.
Qed.

Lemma failed_fetch_reports_health_only_witness :
  constructed Examples.c0 ∧
  (∀ session,
     Runs.session0 (config Examples.fetcherM) = inl session →
     is_Some (Runs.brokenDo (worker (workInit Examples.fetcherM)) session
                NewCFObjects).2) ∧
  ∃ f' s' out,
    scrape Runs.session0 Runs.brokenDo Runs.zeroSeconds Examples.fetcherM
      0.25 1700000000 (mkState Examples.c0 [] [])
    = Some (f', s') ∧
    ch s' = [] ++ out ∧
    length out = 5 ∧
    base.filter (detail Examples.c0) out = [] ∧
    held (collector s') = held Examples.c0 ∧
    g_val (lastMetadataScrapeErrorMetric (collector s')) = 1%float ∧
    g_val (lastMetadataScrapeDurationSecondsMetric (collector s'))
    = 0.25%float ∧
    c_val (metadataScrapeErrorsTotalMetric (collector s'))
    = (c_val (metadataScrapeErrorsTotalMetric Examples.c0) + 1)%N ∧
    Forall (λ e, Log.level e ≠ Log.WarnLevel)
      (drop (length (@nil Log.Entry)) (logs s')).
Proof.
  assert (constructed Examples.c0) as Hc by reflexivity.
  assert (∀ session,
            Runs.session0 (config Examples.fetcherM) = inl session →
            is_Some (Runs.brokenDo (worker (workInit Examples.fetcherM))
                       session NewCFObjects).2) as Hf.
  { intros session _. eexists. reflexivity. }
  split; [exact Hc|]. split; [exact Hf|].
  exact (failed_fetch_reports_health_only Runs.session0 Runs.brokenDo
           Runs.zeroSeconds Examples.fetcherM 0.25 1700000000
           Examples.c0 [] [] Hc Hf).
Defined.



End SnapshotFacts.


(* ===================================================================== *)
(** * The metadata fetch functions *)
(* ===================================================================== *)

Module MetadataFetchFacts.
Import MetadataFetch.

Section Reassign.
Context {A : Type}.
Variable GUID : A → string.
Variable MetadataNil : A → bool.

Lemma reassign_cons k visits (m : gmap string A) :
  reassign GUID MetadataNil (k :: visits) m
  = reassign GUID MetadataNil visits
      (match m !! k with
       | Some x => if MetadataNil x then m else <[GUID x := x]> m
       | None => m
       end).
Proof. reflexivity. Qed.

Lemma reassign_keyed visits (m : gmap string A) :
  keyedByGUID GUID m → reassign GUID MetadataNil visits m = m.
Proof.
  intros Hk. induction visits as [|k visits IH]; [reflexivity|].
  rewrite reassign_cons.
  destruct (m !! k) as [x|] eqn:E; [|exact IH].
  destruct (MetadataNil x); [exact IH|].
  rewrite (Hk k x E), (insert_id m k x E). exact IH.
Qed.

Lemma reassign_is_Some visits (m : gmap string A) k :
  is_Some (m !! k) → is_Some (reassign GUID MetadataNil visits m !! k).
Proof.
  revert m. induction visits as [|k' visits IH]; intros m Hm; [exact Hm|].
  rewrite reassign_cons. apply IH.
  destruct (m !! k') as [x|] eqn:E; [|exact Hm].
  destruct (MetadataNil x); [exact Hm|].
  rewrite lookup_insert_is_Some. destruct (decide (GUID x = k)); auto.
Qed.

Lemma reassign_lookup visits (m : gmap string A) k x :
  reassign GUID MetadataNil visits m !! k = Some x →
  m !! k = Some x ∨
  (GUID x = k ∧ MetadataNil x = false ∧ ∃ k', k' ∈ visits ∧ m !! k' = Some x).
Proof.
  revert m. induction visits as [|k' visits IH]; intros m Hr; [by left|].
  rewrite reassign_cons in Hr. apply IH in Hr.
  destruct (m !! k') as [y|] eqn:E.
  - destruct (MetadataNil y) eqn:En.
    + destruct Hr as [Hr|(Hg & Hn & k'' & Hin & Hk)]; [by left|].
      right. split; [done|]. split; [done|].
      exists k''. split; [by apply list_elem_of_further|done].
    + assert (∀ j, <[GUID y:=y]> m !! j = Some x →
                   m !! j = Some x ∨ (GUID x = j ∧ x = y)) as Hins.
      { intros j. destruct (decide (GUID y = j)) as [<-|Hne].
        - rewrite lookup_insert_eq. intros [= <-]. by right.
        - rewrite lookup_insert_ne by done. by left. }
      destruct Hr as [Hr|(Hg & Hn & k'' & Hin & Hk)].
      * apply Hins in Hr as [Hr|[Hg ->]]; [by left|].
        right. split; [done|]. split; [done|].
        exists k'. split; [apply list_elem_of_here|done].
      * right. split; [done|]. split; [done|].
        apply Hins in Hk as [Hk|[_ ->]].
        -- exists k''. split; [by apply list_elem_of_further|done].
        -- exists k'. split; [apply list_elem_of_here|done].
  - destruct Hr as [Hr|(Hg & Hn & k'' & Hin & Hk)]; [by left|].
    right. split; [done|]. split; [done|].
    exists k''. split; [by apply list_elem_of_further|done].
Qed.

End Reassign.

Section Resources.
Context {Org Space App : Type}.
Variable orgGUID : Org → string.
Variable orgMetadataNil : Org → bool.
Variable spaceGUID : Space → string.
Variable spaceMetadataNil : Space → bool.
Variable appGUID : App → string.
Variable appMetadataNil : App → bool.

Lemma Resources_eta (r : @Resources Org Space App) :
  {| Orgs := Orgs r; Spaces := Spaces r; Apps := Apps r |} = r.
Proof. by destruct r. Qed.

End Resources.

(** X14.  On a snapshot whose three maps hold every element under its
    GUID, the three metadata fetch functions change nothing and return
    no error: each assignment stores an element where it already is,
    whatever its metadata is and in whatever order the map is ranged
    over. *)
Theorem metadata_fetch_changes_nothing {Org Space App : Type}
    (orgGUID : Org → string) (orgMetadataNil : Org → bool)
    (spaceGUID : Space → string) (spaceMetadataNil : Space → bool)
    (appGUID : App → string) (appMetadataNil : App → bool)
    (result : @Resources Org Space App) :
  keyedByGUID orgGUID (Orgs result) →
  keyedByGUID spaceGUID (Spaces result) →
  keyedByGUID appGUID (Apps result) →
  fetchOrgMetadata orgGUID orgMetadataNil result = (result, None) ∧
  fetchSpaceMetadata spaceGUID spaceMetadataNil result = (result, None) ∧
  fetchAppMetadata appGUID appMetadataNil result = (result, None) ∧
  ∀ visits,
    reassign orgGUID orgMetadataNil visits (Orgs result) = Orgs result ∧
    reassign spaceGUID spaceMetadataNil visits (Spaces result)
    = Spaces result ∧
    reassign appGUID appMetadataNil visits (Apps result) = Apps result.
Proof.
  intros Ho Hs Ha.
  unfold fetchOrgMetadata, fetchSpaceMetadata, fetchAppMetadata.
  rewrite !reassign_keyed by done. rewrite Resources_eta.
  repeat split; by apply reassign_keyed.
Qed.

Lemma metadata_fetch_changes_nothing_witness :
  fetchOrgMetadata fst snd Runs.resources0 = (Runs.resources0, None) ∧
  fetchSpaceMetadata fst snd Runs.resources0 = (Runs.resources0, None) ∧
  fetchAppMetadata fst snd Runs.resources0 = (Runs.resources0, None) ∧
  ∀ visits,
    reassign fst snd visits (Orgs Runs.resources0) = Orgs Runs.resources0 ∧
    reassign fst snd visits (Spaces Runs.resources0)
    = Spaces Runs.resources0 ∧
    reassign fst snd visits (Apps Runs.resources0) = Apps Runs.resources0.
Proof.
  apply (metadata_fetch_changes_nothing fst snd fst snd fst snd
           Runs.resources0).
  - intros k x H. unfold Runs.resources0 in H. cbn [Orgs] in H.
    apply lookup_singleton_Some in H as [<- <-]. reflexivity.
  - intros k x H. unfold Runs.resources0 in H. cbn [Spaces] in H.
    apply lookup_singleton_Some in H as [<- <-]. reflexivity.
  - intros k x H. unfold Runs.resources0 in H. cbn [Apps] in H.
    apply lookup_singleton_Some in H as [<- <-]. reflexivity.
Defined.

Lemma reassign_rekeyed {A} (GUID : A → string) (MetadataNil : A → bool)
    visits (m : gmap string A) :
  rekeyed GUID MetadataNil m (reassign GUID MetadataNil visits m).
Proof.
  split.
  - intros k. apply reassign_is_Some.
  - intros k x Hr. apply reassign_lookup in Hr.
    destruct Hr as [Hr|(Hg & Hn & k' & _ & Hk)]; [by left|].
    right. split; [done|]. split; [done|]. by exists k'.
Qed.

(** X15.  Whatever the snapshot holds, each metadata fetch function
    returns no error, leaves the two maps of the other kinds as they
    are, removes no key of its own map and stores nothing new in it: an
    entry of the map it leaves is the entry the map had under that key,
    or an element the map had, with metadata, now held under its GUID.
    This holds in whatever order the map is ranged over. *)
Theorem metadata_fetch_only_rekeys {Org Space App : Type}
    (orgGUID : Org → string) (orgMetadataNil : Org → bool)
    (spaceGUID : Space → string) (spaceMetadataNil : Space → bool)
    (appGUID : App → string) (appMetadataNil : App → bool)
    (result : @Resources Org Space App) :
  (∃ orgs,
     fetchOrgMetadata orgGUID orgMetadataNil result
     = ({| Orgs := orgs; Spaces := Spaces result; Apps := Apps result |},
        None) ∧
     rekeyed orgGUID orgMetadataNil (Orgs result) orgs) ∧
  (∃ spaces,
     fetchSpaceMetadata spaceGUID spaceMetadataNil result
     = ({| Orgs := Orgs result; Spaces := spaces; Apps := Apps result |},
        None) ∧
     rekeyed spaceGUID spaceMetadataNil (Spaces result) spaces) ∧
  (∃ apps,
     fetchAppMetadata appGUID appMetadataNil result
     = ({| Orgs := Orgs result; Spaces := Spaces result; Apps := apps |},
        None) ∧
     rekeyed appGUID appMetadataNil (Apps result) apps) ∧
  (∀ visits,
     rekeyed orgGUID orgMetadataNil (Orgs result)
       (reassign orgGUID orgMetadataNil visits (Orgs result)) ∧
     rekeyed spaceGUID spaceMetadataNil (Spaces result)
       (reassign spaceGUID spaceMetadataNil visits (Spaces result)) ∧
     rekeyed appGUID appMetadataNil (Apps result)
       (reassign appGUID appMetadataNil visits (Apps result))).
Proof.
  split; [|split; [|split]].
  - eexists. split; [reflexivity|apply reassign_rekeyed].
  - eexists. split; [reflexivity|apply reassign_rekeyed].
  - eexists. split; [reflexivity|apply reassign_rekeyed].
  - intros visits. repeat split; apply reassign_rekeyed.
Qed.

End MetadataFetchFacts.


(* ===================================================================== *)
(** * The collector under the panics of the runtime *)
(* ===================================================================== *)

Module RuntimeFacts.
Import Models Prometheus Collectors Render Registry.
Import CollectorFacts RegistryFacts.

Lemma bind_ext {A B} (m m' : M A) (f f' : A → M B) s :
  m s = m' s → (∀ a s1, f a s1 = f' a s1) → (m ≫= f) s = (m' ≫= f') s.
Proof.
  intros Hm Hf. rewrite !bind_run, Hm. destruct (m' s) as [[a s1]|]; auto.
Qed.

Lemma bind_Some {A B} (m : M A) (f : A → M B) s x :
  (m ≫= f) s = Some x → ∃ a s1, m s = Some (a, s1) ∧ f a s1 = Some x.
Proof.
  rewrite bind_run. destruct (m s) as [[a s1]|]; [|discriminate].
  intros H. by exists a, s1.
Qed.

Lemma forM__ext {A} (l : list A) (body body' : A → M unit) :
  (∀ x, x ∈ l → ∀ s, body x s = body' x s) →
  ∀ s, forM_ l body s = forM_ l body' s.
Proof.
  induction l as [|x l IH]; intros H s; [reflexivity|].
  rewrite !forM__cons, (H x) by apply list_elem_of_here.
  destruct (body' x s) as [[[] s1]|]; [|reflexivity].
  apply IH. intros y Hy. apply H. by apply list_elem_of_further.
Qed.

Lemma forM__fmap {A B} (f : A → B) (l : list A) (body : B → M unit) s :
  forM_ (f <$> l) body s = forM_ l (λ x, body (f x)) s.
Proof.
  revert s. induction l as [|x l IH]; intros s; [reflexivity|].
  rewrite fmap_cons, !forM__cons.
  destruct (body (f x) s) as [[[] s1]|]; [apply IH|reflexivity].
Qed.

(** [With] checks what the embedding without panics checks, and the
    label values. *)
Lemma With_values v labels :
  Runtime.With v labels
  = if forallb (λ nv, Runtime.ValidString nv.2) labels
    then With v labels else None.
Proof.
  unfold Runtime.With, With.
  destruct (decide _); by destruct (forallb _ labels).
Qed.

Lemma WithSet_valid r labels x s :
  forallb (λ nv, Runtime.ValidString nv.2) labels = true →
  Runtime.WithSet r labels x s = WithSet r labels x s.
Proof.
  intros H. unfold Runtime.WithSet, WithSet. by rewrite With_values, H.
Qed.

Lemma WithSet_invalid r labels x s :
  forallb (λ nv, Runtime.ValidString nv.2) labels = false →
  Runtime.WithSet r labels x s = None.
Proof.
  intros H. unfold Runtime.WithSet. by rewrite With_values, H.
Qed.

Lemma ValidString_org k :
  Runtime.ValidString ("org_" +:+ k) = Runtime.ValidString k.
Proof. reflexivity. Qed.

Lemma ValidString_space k :
  Runtime.ValidString ("space_" +:+ k) = Runtime.ValidString k.
Proof. reflexivity. Qed.

Lemma validEntity_unptr e :
  Runtime.validEntity e →
  Runtime.ValidString (Runtime.GUID e) = true ∧
  Runtime.ValidString (Runtime.Name e) = true ∧
  Runtime.Metadata e = Some (Metadata (Runtime.unptr e)) ∧
  map_Forall (λ k v, Runtime.ValidString k = true ∧
                     Runtime.ValidString v = true)
    (Labels (Metadata (Runtime.unptr e))).
Proof.
  unfold Runtime.validEntity, Runtime.unptr. intros (Hg & Hn & Hm).
  destruct (Runtime.Metadata e) as [md|]; [|destruct Hm].
  by destruct md.
Qed.

Ltac valid_labels :=
  apply WithSet_valid; cbn [forallb snd Runtime.unptr GUID Models.Name];
  rewrite ?ValidString_org, ?ValidString_space;
  repeat match goal with
         | H : Runtime.ValidString _ = true |- _ => rewrite H
         end;
  reflexivity.

Ltac inner_loop Hl :=
  apply forM__ext;
  let k := fresh "k" in let v := fresh "v" in
  let Hin := fresh "Hin" in let s := fresh "s" in
  intros [k v] Hin s;
  apply elem_of_map_to_list in Hin; apply Hl in Hin as [? ?];
  valid_labels.

Lemma reportMetadataMetrics_plain objs s :
  Runtime.ready objs →
  Runtime.reportMetadataMetrics objs s
  = reportMetadataMetrics (Runtime.plain objs) s.
Proof.
  intros (Ho & Hs & Ha & Hom & Hsm).
  rewrite Forall_forall in Ho, Hs, Ha.
  unfold Runtime.reportMetadataMetrics, reportMetadataMetrics.
  cbn [Runtime.plain Organizations Spaces Applications OrganizationsMap
       SpacesMap].
  apply bind_ext; [|intros _ s1; apply bind_ext; [|intros _ s2; apply bind_ext; [|reflexivity]]].
  - rewrite forM__fmap. apply forM__ext. intros org Hin s'.
    destruct (validEntity_unptr org (Ho org Hin)) as (Hg & Hn & Hm & Hl).
    rewrite bind_run, Hm. cbn [Runtime.Labels].
    inner_loop Hl.
  - rewrite forM__fmap. apply forM__ext. intros space Hin s'.
    destruct (validEntity_unptr space (Hs space Hin)) as (Hg & Hn & Hm & Hl).
    change (relationshipGUID (Runtime.unptr space) "organization")
      with (Runtime.relationshipGUID space "organization").
    destruct (Runtime.relationshipGUID space "organization") as [g|];
      [|reflexivity].
    rewrite lookup_fmap.
    destruct (Runtime.OrganizationsMap objs !! g) as [org|] eqn:Eo;
      [|reflexivity].
    cbn [fmap option_fmap option_map].
    destruct (validEntity_unptr org (Hom g org Eo)) as (Hg' & Hn' & _ & _).
    rewrite bind_run, Hm. cbn [Runtime.Labels].
    inner_loop Hl.
  - rewrite forM__fmap. apply forM__ext. intros app Hin s'.
    destruct (validEntity_unptr app (Ha app Hin)) as (Hg & Hn & Hm & Hl).
    change (relationshipGUID (Runtime.unptr app) "space")
      with (Runtime.relationshipGUID app "space").
    destruct (Runtime.relationshipGUID app "space") as [sg|];
      [|reflexivity].
    rewrite lookup_fmap.
    destruct (Runtime.SpacesMap objs !! sg) as [space|] eqn:Es;
      [|reflexivity].
    cbn [fmap option_fmap option_map].
    destruct (validEntity_unptr space (Hsm sg space Es))
      as (Hgs & Hns & Hms & Hls).
    change (relationshipGUID (Runtime.unptr space) "organization")
      with (Runtime.relationshipGUID space "organization").
    destruct (Runtime.relationshipGUID space "organization") as [g|];
      [|reflexivity].
    rewrite lookup_fmap.
    destruct (Runtime.OrganizationsMap objs !! g) as [org|] eqn:Eo;
      [|reflexivity].
    cbn [fmap option_fmap option_map].
    destruct (validEntity_unptr org (Hom g org Eo))
      as (Hgo & Hno & Hmo & Hlo).
    rewrite bind_run, Hm. cbn [Runtime.Labels].
    apply bind_ext; [inner_loop Hl|intros _ s3].
    rewrite bind_run, Hmo. cbn [Runtime.Labels].
    apply bind_ext; [inner_loop Hlo|intros _ s4].
    rewrite bind_run, Hms. cbn [Runtime.Labels].
    inner_loop Hls.
Qed.

Lemma Collect_plain objs now s :
  Runtime.ready objs ∨ is_Some (Runtime.Error objs) →
  Runtime.Collect objs now s = Collect (Runtime.plain objs) now s.
Proof.
  intros H. unfold Runtime.Collect, Collect.
  cbn [Runtime.plain Error Took].
  destruct (Runtime.Error objs) as [e|] eqn:He; [reflexivity|].
  destruct H as [Hr|[e He']]; [|discriminate He'].
  apply bind_ext; [|reflexivity].
  apply bind_ext; [|reflexivity].
  by apply reportMetadataMetrics_plain.
Qed.







Lemma scrapes_plain l s :
  Forall (λ on, Runtime.ready on.1 ∨ is_Some (Runtime.Error on.1)) l →
  Runtime.scrapes l s = scrapes (Runtime.plainScrapes l) s.
Proof.
  intros H. unfold Runtime.scrapes, scrapes, Runtime.plainScrapes.
  rewrite forM__fmap. apply forM__ext. intros on Hin s'.
  rewrite Forall_forall in H. by apply Collect_plain, H.
Qed.

Lemma failedScrapes_plain l :
  length (failedScrapes (Runtime.plainScrapes l)) = length (Runtime.failedScrapes l).
Proof.
  unfold failedScrapes, Runtime.failedScrapes, Runtime.plainScrapes.
  induction l as [|on l IH]; [reflexivity|].
  rewrite fmap_cons, !filter_cons. cbn [fst Runtime.plain Error].
  destruct (decide (is_Some (Runtime.Error on.1))); cbn [length]; by rewrite IH.
Qed.

(** X1.  [Collect] can be invoked any number of times on a collector
    whose samples are well formed (a new collector is), for snapshots
    each of which carries a top-level error or is ready, that is, has
    metadata on every entity and only valid UTF-8 in GUIDs, names, label
    keys and label values: no invocation panics, the samples stay well
    formed and the descriptors stay those [Describe] announces.  The
    scrape counter grows by the number of invocations, the scrape-error
    counter by the number of snapshots that carried a top-level error,
    and the error flag tells of the last snapshot alone. *)
Theorem scrapes_are_counted c l ch0 logs0 :
  wellFormed c →
  Forall (λ on, Runtime.ready on.1 ∨ is_Some (Runtime.Error on.1)) l →
  ∃ s',
    Runtime.scrapes l (mkState c ch0 logs0) = Some (tt, s') ∧
    wellFormed (collector s') ∧
    Describe (collector s') = Describe c ∧
    c_val (metadataScrapesTotalMetric (collector s'))
    = (c_val (metadataScrapesTotalMetric c) + N.of_nat (length l))%N ∧
    c_val (metadataScrapeErrorsTotalMetric (collector s'))
    = (c_val (metadataScrapeErrorsTotalMetric c)
       + N.of_nat (length (Runtime.failedScrapes l)))%N ∧
    (∀ on, last l = Some on →
           g_val (lastMetadataScrapeErrorMetric (collector s'))
           = match Runtime.Error on.1 with
             | Some _ => 1%float
             | None => 0%float
             end).
Proof.
  intros Hwf Hl.
  destruct (scrapes_run (Runtime.plainScrapes l) (mkState c ch0 logs0) Hwf)
    as (s' & Hrun & Hwf' & Hd & Hn & He & Hlast & _).
  exists s'. rewrite scrapes_plain by done.
  split; [exact Hrun|]. split; [exact Hwf'|]. split; [exact Hd|].
  split; [by rewrite Hn; unfold Runtime.plainScrapes; rewrite length_fmap|].
  split; [by rewrite He, failedScrapes_plain|].
  intros on Hon. apply (Hlast (Runtime.plain on.1, on.2)).
  unfold Runtime.plainScrapes. by rewrite fmap_last, Hon.
Qed.

Lemma scrapes_are_counted_witness :
  wellFormed Examples.c0 ∧
  Forall (λ on, Runtime.ready on.1 ∨ is_Some (Runtime.Error on.1))
    Runtime.threeScrapes ∧
  ∃ s',
    Runtime.scrapes Runtime.threeScrapes (mkState Examples.c0 [] [])
    = Some (tt, s') ∧
    wellFormed (collector s') ∧
    Describe (collector s') = Describe Examples.c0 ∧
    c_val (metadataScrapesTotalMetric (collector s'))
    = (c_val (metadataScrapesTotalMetric Examples.c0)
       + N.of_nat (length Runtime.threeScrapes))%N ∧
    c_val (metadataScrapeErrorsTotalMetric (collector s'))
    = (c_val (metadataScrapeErrorsTotalMetric Examples.c0)
       + N.of_nat (length (Runtime.failedScrapes Runtime.threeScrapes)))%N ∧
    (∀ on, last Runtime.threeScrapes = Some on →
           g_val (lastMetadataScrapeErrorMetric (collector s'))
           = match Runtime.Error on.1 with
             | Some _ => 1%float
             | None => 0%float
             end).
Proof.
  pose proof (New_wellFormed "cf" "test" "bosh") as Hw.
  assert (Forall (λ on, Runtime.ready on.1 ∨ is_Some (Runtime.Error on.1))
            Runtime.threeScrapes) as Hl.
  { apply (bool_decide_unpack _). vm_compute. exact I. }
  split; [exact Hw|]. split; [exact Hl|].
  exact (scrapes_are_counted Examples.c0 Runtime.threeScrapes [] [] Hw Hl).
Defined.

Section Pipeline.
Context {SessionExt : Type}.
Variable NewSessionExt : Fetcher.CFConfig → SessionExt + error.
Variable Do : Fetcher.Worker → SessionExt → Runtime.CFObjects
              → Runtime.CFObjects * option error.
Variable Sprintf0f : float → string.

(** What [GetObjects] returns, whichever way the fetch went. *)
Lemma GetObjects_cases f took logs0 :
  ∃ f' mid,
    Runtime.GetObjects NewSessionExt Do Sprintf0f f took logs0
    = (Runtime.setTook took
         match NewSessionExt (Fetcher.config f) with
         | inr err => Runtime.setError (Some err) Runtime.NewCFObjects
         | inl session =>
             Runtime.setError
               (Do (Fetcher.worker (Fetcher.workInit f)) session
                  Runtime.NewCFObjects).2
               (Do (Fetcher.worker (Fetcher.workInit f)) session
                  Runtime.NewCFObjects).1
         end,
       f',
       logs0 ++ Snapshot.Infof "collecting objects from cloud foundry API"
             :: mid).
Proof.
  unfold Runtime.GetObjects, Runtime.fetch.
  destruct (NewSessionExt (Fetcher.config f)) as [session|err] eqn:E.
  - destruct (Do (Fetcher.worker (Fetcher.workInit f)) session
                Runtime.NewCFObjects) as [data e] eqn:ED.
    eexists _, _. by rewrite <- !app_assoc.
  - eexists _, _. by rewrite <- !app_assoc.
Qed.

End Pipeline.

(** X11.  One scrape, from [GetObjects] to [Collect], on a collector
    built by [NewMetadataCollector], for any session constructor and
    any worker that, when it returns no error, returns a ready snapshot:
    the scrape does not panic, whichever way the fetch goes.  The
    duration gauge is set to the time [GetObjects] measured, on a failed
    session too; the timestamp gauge to the time of the collection; the
    flag is 1 exactly when the session could not be opened or the worker
    returned an error; the scrape is counted; the log keeps what it held
    and the entry that announces the fetch. *)
Theorem scrape_health_follows_the_fetch {SessionExt : Type}
    (NewSessionExt : Fetcher.CFConfig → SessionExt + error)
    (Do : Fetcher.Worker → SessionExt → Runtime.CFObjects
          → Runtime.CFObjects * option error)
    (Sprintf0f : float → string) f took now c ch0 logs0 :
  constructed c →
  (∀ session data,
     NewSessionExt (Fetcher.config f) = inl session →
     Do (Fetcher.worker (Fetcher.workInit f)) session Runtime.NewCFObjects
     = (data, None) →
     Runtime.ready data) →
  ∃ f' s',
    Runtime.scrape NewSessionExt Do Sprintf0f f took now (mkState c ch0 logs0)
    = Some (f', s') ∧
    g_val (lastMetadataScrapeDurationSecondsMetric (collector s')) = took ∧
    g_val (lastMetadataScrapeTimestampMetric (collector s'))
    = float64_of_Z now ∧
    g_val (lastMetadataScrapeErrorMetric (collector s'))
    = match NewSessionExt (Fetcher.config f) with
      | inr _ => 1%float
      | inl session =>
          match (Do (Fetcher.worker (Fetcher.workInit f)) session
                   Runtime.NewCFObjects).2 with
          | Some _ => 1%float
          | None => 0%float
          end
      end ∧
    c_val (metadataScrapesTotalMetric (collector s'))
    = (c_val (metadataScrapesTotalMetric c) + 1)%N ∧
    (logs0 ++ [Snapshot.Infof "collecting objects from cloud foundry API"])
      `prefix_of` logs s'.
Proof.
  intros Hc Hready.
  destruct (GetObjects_cases NewSessionExt Do Sprintf0f f took logs0)
    as (f' & mid & EG).
  unfold Runtime.scrape. cbn [collector ch logs]. rewrite EG.
  set (data := Runtime.setTook took _).
  assert (Runtime.Took data = took) as HT by reflexivity.
  assert ((Runtime.ready data ∨ is_Some (Runtime.Error data)) ∧
          match NewSessionExt (Fetcher.config f) with
          | inr _ => 1%float
          | inl session =>
              match (Do (Fetcher.worker (Fetcher.workInit f)) session
                       Runtime.NewCFObjects).2 with
              | Some _ => 1%float
              | None => 0%float
              end
          end
          = match Runtime.Error data with
            | Some _ => 1%float
            | None => 0%float
            end)
    as [Hdata ->].
  { subst data.
    destruct (NewSessionExt (Fetcher.config f)) as [session|err];
      [|split; [right; by eexists|reflexivity]].
    pose proof (Hready session) as Hr.
    destruct (Do (Fetcher.worker (Fetcher.workInit f)) session
                Runtime.NewCFObjects) as [d [e|]].
    - split; [right; by eexists|reflexivity].
    - split; [left; exact (Hr d eq_refl eq_refl)|reflexivity]. }
  assert ((logs0 ++ [Snapshot.Infof "collecting objects from cloud foundry API"])
            `prefix_of`
          (logs0 ++ Snapshot.Infof "collecting objects from cloud foundry API"
                 :: mid))
    as Hpre.
  { apply prefix_app, prefix_cons, prefix_nil. }
  rewrite Collect_plain by done.
  destruct (Runtime.Error data) as [e|] eqn:Ed.
  - rewrite (Collect_run_error (Runtime.plain data) now _ e Ed).
    eexists _, _. split; [reflexivity|].
    split; [exact HT|]. split; [reflexivity|]. split; [reflexivity|].
    split; [reflexivity|]. exact Hpre.
  - rewrite (Collect_run_ok (Runtime.plain data) now (mkState c ch0 _) Ed Hc).
    eexists _, _. split; [reflexivity|].
    split; [exact HT|]. split; [reflexivity|]. split; [reflexivity|].
    split; [reflexivity|].
    cbn [logs health rendered written]. by do 3 apply prefix_app_r.
Qed.

Lemma scrape_health_follows_the_fetch_witness :
  constructed Examples.c0 ∧
  (∀ session data,
     Runs.session0 (Fetcher.config Examples.fetcherM) = inl session →
     Runtime.snapshotDo (Fetcher.worker (Fetcher.workInit Examples.fetcherM))
       session Runtime.NewCFObjects
     = (data, None) →
     Runtime.ready data) ∧
  ∃ f' s',
    Runtime.scrape Runs.session0 Runtime.snapshotDo Runs.zeroSeconds
      Examples.fetcherM 0.25 1700000000 (mkState Examples.c0 [] [])
    = Some (f', s') ∧
    g_val (lastMetadataScrapeDurationSecondsMetric (collector s'))
    = 0.25%float ∧
    g_val (lastMetadataScrapeTimestampMetric (collector s'))
    = float64_of_Z 1700000000 ∧
    g_val (lastMetadataScrapeErrorMetric (collector s'))
    = match Runs.session0 (Fetcher.config Examples.fetcherM) with
      | inr _ => 1%float
      | inl session =>
          match (Runtime.snapshotDo
                   (Fetcher.worker (Fetcher.workInit Examples.fetcherM))
                   session Runtime.NewCFObjects).2 with
          | Some _ => 1%float
          | None => 0%float
          end
      end ∧
    c_val (metadataScrapesTotalMetric (collector s'))
    = (c_val (metadataScrapesTotalMetric Examples.c0) + 1)%N ∧
    ([] ++ [Snapshot.Infof "collecting objects from cloud foundry API"])
      `prefix_of` logs s'.
Proof.
  assert (constructed Examples.c0) as Hc by reflexivity.
  assert (∀ session data,
            Runs.session0 (Fetcher.config Examples.fetcherM) = inl session →
            Runtime.snapshotDo
              (Fetcher.worker (Fetcher.workInit Examples.fetcherM))
              session Runtime.NewCFObjects
            = (data, None) →
            Runtime.ready data) as Hr.
  { intros session data _ [= <-].
    apply (bool_decide_unpack _). vm_compute. exact I. }
  split; [exact Hc|]. split; [exact Hr|].
  exact (scrape_health_follows_the_fetch Runs.session0 Runtime.snapshotDo
           Runs.zeroSeconds Examples.fetcherM 0.25 1700000000
           Examples.c0 [] [] Hc Hr).
Defined.

Lemma bind_impl {A B} (m m' : M A) (f f' : A → M B) s y :
  (∀ a s1, m s = Some (a, s1) → m' s = Some (a, s1)) →
  (∀ a s1 y, f a s1 = Some y → f' a s1 = Some y) →
  (m ≫= f) s = Some y → (m' ≫= f') s = Some y.
Proof.
  intros Hm Hf H. apply bind_Some in H as (a & s1 & H1 & H2).
  rewrite bind_run, (Hm a s1 H1). by apply Hf.
Qed.

Lemma forM__impl {A} (l : list A) (body body' : A → M unit) :
  (∀ x, x ∈ l → ∀ s y, body x s = Some y → body' x s = Some y) →
  ∀ s y, forM_ l body s = Some y → forM_ l body' s = Some y.
Proof.
  induction l as [|x l IH]; intros H s y; [done|].
  rewrite !forM__cons. intros Hy.
  destruct (body x s) as [[[] s1]|] eqn:E; [|discriminate].
  rewrite (H x (list_elem_of_here _ _) s _ E).
  revert Hy. apply IH. intros z Hz. apply H. by apply list_elem_of_further.
Qed.

Lemma WithSet_impl r labels x s y :
  Runtime.WithSet r labels x s = Some y → WithSet r labels x s = Some y.
Proof.
  unfold Runtime.WithSet, WithSet. rewrite With_values.
  by destruct (forallb _ labels).
Qed.

Lemma Labels_Some e s l s1 :
  Runtime.Labels (Runtime.Metadata e) s = Some (l, s1) →
  l = Labels (Metadata (Runtime.unptr e)) ∧ s1 = s.
Proof.
  unfold Runtime.Labels, Runtime.unptr.
  destruct (Runtime.Metadata e) as [md|]; [|discriminate].
  by intros [= <- <-].
Qed.

Ltac inner_impl :=
  let H := fresh "H" in let HL := fresh "HL" in
  let l := fresh "l" in let s1 := fresh "s" in
  intros H; apply bind_Some in H as (l & s1 & HL & H);
  apply Labels_Some in HL as [-> ->]; revert H;
  apply forM__impl; intros [? ?] _ ? ?; apply WithSet_impl.

Lemma reportMetadataMetrics_impl objs s y :
  Runtime.reportMetadataMetrics objs s = Some y →
  reportMetadataMetrics (Runtime.plain objs) s = Some y.
Proof.
  unfold Runtime.reportMetadataMetrics, reportMetadataMetrics.
  cbn [Runtime.plain Organizations Spaces Applications OrganizationsMap
       SpacesMap].
  apply bind_impl;
    [|intros _ s1 y1; apply bind_impl;
        [|intros _ s2 y2; apply bind_impl; [|done]]].
  - intros [] s1. rewrite forM__fmap. apply forM__impl.
    intros org _ s' y'. inner_impl.
  - intros [] s2. rewrite forM__fmap. apply forM__impl.
    intros space _ s' y'.
    change (relationshipGUID (Runtime.unptr space) "organization")
      with (Runtime.relationshipGUID space "organization").
    destruct (Runtime.relationshipGUID space "organization") as [g|];
      [|done].
    rewrite lookup_fmap.
    destruct (Runtime.OrganizationsMap objs !! g) as [org|]; [|done].
    cbn [fmap option_fmap option_map]. inner_impl.
  - intros [] s3. rewrite forM__fmap. apply forM__impl.
    intros app _ s' y'.
    change (relationshipGUID (Runtime.unptr app) "space")
      with (Runtime.relationshipGUID app "space").
    destruct (Runtime.relationshipGUID app "space") as [sg|]; [|done].
    rewrite lookup_fmap.
    destruct (Runtime.SpacesMap objs !! sg) as [space|]; [|done].
    cbn [fmap option_fmap option_map].
    change (relationshipGUID (Runtime.unptr space) "organization")
      with (Runtime.relationshipGUID space "organization").
    destruct (Runtime.relationshipGUID space "organization") as [g|];
      [|done].
    rewrite lookup_fmap.
    destruct (Runtime.OrganizationsMap objs !! g) as [org|]; [|done].
    cbn [fmap option_fmap option_map].
    intros H. apply bind_Some in H as (l & s4 & HL & H).
    apply Labels_Some in HL as [-> ->]. revert H.
    apply bind_impl.
    { intros [] s5. apply forM__impl. intros [? ?] _ ? ?. apply WithSet_impl. }
    intros _ s5 y5 H. apply bind_Some in H as (l & s6 & HL & H).
    apply Labels_Some in HL as [-> ->]. revert H.
    apply bind_impl.
    { intros [] s7. apply forM__impl. intros [? ?] _ ? ?. apply WithSet_impl. }
    intros _ s7 y7. inner_impl.
Qed.

(** X16.  Wherever [Collect] returns under the panics of the runtime, on
    any snapshot and in any state of the collector, the embedding
    without panics returns the same state for the same snapshot; so does
    the walk.  What is proved of the embedding without panics is thereby
    proved of every invocation that returns. *)
Theorem embedding_agrees_where_the_collector_returns objs now s y :
  Runtime.Collect objs now s = Some y →
  Collect (Runtime.plain objs) now s = Some y ∧
  (∀ r s', Runtime.reportMetadataMetrics objs s = Some (r, s') →
           reportMetadataMetrics (Runtime.plain objs) s = Some (r, s')).
Proof.
  intros H. split; [|intros r s'; apply reportMetadataMetrics_impl].
  revert H. unfold Runtime.Collect, Collect.
  cbn [Runtime.plain Error Took].
  destruct (Runtime.Error objs) as [e|]; [done|].
  apply bind_impl; [|done]. intros e s1.
  apply bind_impl; [|done]. intros r s2.
  apply reportMetadataMetrics_impl.
Qed.

Lemma embedding_agrees_where_the_collector_returns_witness :
  ∃ y,
    Runtime.Collect (Runtime.lift Examples.snapshot1) 1700000000
      (start Examples.c0) = Some y ∧
    Collect (Runtime.plain (Runtime.lift Examples.snapshot1)) 1700000000
      (start Examples.c0) = Some y ∧
    (∀ r s',
       Runtime.reportMetadataMetrics (Runtime.lift Examples.snapshot1)
         (start Examples.c0) = Some (r, s') →
       reportMetadataMetrics (Runtime.plain (Runtime.lift Examples.snapshot1))
         (start Examples.c0) = Some (r, s')).
Proof.
  destruct (Runtime.Collect (Runtime.lift Examples.snapshot1) 1700000000
              (start Examples.c0)) as [y|] eqn:E;
    [|vm_compute in E; discriminate E].
  exists y. split; [reflexivity|].
  exact (embedding_agrees_where_the_collector_returns
           (Runtime.lift Examples.snapshot1) 1700000000 (start Examples.c0)
           y E).
Defined.

End RuntimeFacts.
